(** * vision-books.py: the daily media tracker

    A shallow embedding of [src/vision-books.py]: the bookshelf scanner with
    its seen-set, the three collectors of [MediaTracker], the call to the
    LLaMA server, the daily update and the scheduler loop [run_daily].

    Python objects are mutable and any statement may raise; the methods are
    therefore written in a state-and-exception monad over the fields of the
    tracker.  A raised exception keeps the state reached so far, as in
    Python.  What the program obtains from outside (the two client
    libraries, the camera, the two HTTP endpoints, the wall clock and the
    ISO date parser of the standard library) is supplied as an oracle; a
    call of [requests.post] encodes its payload as JSON before it reaches
    the endpoint, and raises when the payload cannot be encoded. *)

From stdpp Require Import gmap strings list pretty.
From Stdlib Require Import ZArith Lia.

Local Open Scope Z_scope.
Local Open Scope string_scope.
Set Warnings "-register-all".

(** ** Values *)

(** A [datetime] is a point on the time line, here a number of
    microseconds.  All datetimes of the program are naive ones produced by
    [datetime.now()], by arithmetic on it or by [datetime.fromisoformat]. *)
Definition datetime := Z.

(** The Python values that travel in the [Dict[str, Any]] records of the
    client libraries and in the decoded JSON body of the LLaMA server.
    Numbers and booleans are left out: what [BaseModel] makes of one in a
    [str] field depends on the version of pydantic, and nothing below
    depends on it. *)
Inductive pyval :=
| PNone
| PStr (s : string)
| PTime (t : datetime)
| PList (l : list pyval)
| PDict (d : gmap string pyval).

(** The exceptions the program can meet; every one of them is a subclass of
    Python's [Exception], which is what [run_daily] catches. *)
Inductive exn :=
| KeyError (key : string)
| TypeError
| ValueError
| ValidationError
| CvError
| ClientError (msg : string)
| RequestError (msg : string)
| ServerError (text : string).

Inductive result (A : Type) :=
| Ok (a : A)
| Raise (e : exn).
Arguments Ok {A} a.
Arguments Raise {A} e.

Definition is_ok {A} (r : result A) : bool :=
  match r with Ok _ => true | Raise _ => false end.

(** ** Data models *)

(** [class MediaItem(BaseModel)]: the field [type] is a plain [str]. *)
Record MediaItem := mkMediaItem {
  title : string;
  creator : string;
  type : string;
  timestamp : datetime
}.

(** [class DailyUpdate(BaseModel)]. *)
Record DailyUpdate := mkDailyUpdate {
  date : datetime;
  new_items : list MediaItem
}.

(** The dictionary literal built by [collect_new_data], with its three
    fixed keys. *)
Record Collected := mkCollected {
  audiobooks : list MediaItem;
  music : list MediaItem;
  physical_books : list MediaItem
}.

(** ** The outside world *)

(** A bounding rectangle [x, y, w, h] as [cv2.boundingRect] returns it. *)
Record Rect := mkRect { rx : Z; ry : Z; rw : Z; rh : Z }.

(** A decoded frame, represented by the bounding rectangles of the external
    contours that [cv2.findContours] finds on its Canny edges, in the order
    it returns them: this is all [process_image] reads of the frame. *)
Definition Image := list Rect.

(** A [requests.Response]: [json] is what [response.json()] evaluates to. *)
Record Response := mkResponse {
  status_code : Z;
  text : string;
  json : result pyval
}.

(** What the outside world answers during one cycle.  [AudibleClient] and
    [SpotifyClient] are placeholders in the source; a client is represented
    by what its call evaluates to.  [camera_frame] is the frame of
    [self.camera.read()], [None] when no frame could be read.
    [llama_post] and [api_post] are what a call of [requests.post] does
    once its payload is encoded: it raises or returns a response. *)
Record Env := mkEnv {
  audible_library : result (list (gmap string pyval));
  spotify_recent : result (list (gmap string pyval));
  camera_frame : option Image;
  llama_post : result Response;
  api_post : result Response
}.

(** What a call of [requests.post] carries. *)
Inductive Payload :=
| LlamaPayload (data : Collected) (prompt : string)
| UpdatePayload (update : DailyUpdate).

(** What the program does to the outside world, in order.
    [RequestsPost] is a call of [requests.post], whether or not it gets as
    far as the endpoint.  The three [print] calls are told apart by their
    constructor; [PrintError e] is the line that shows [str(e)]. *)
Inductive Event :=
| RequestsPost (url : string) (payload : Payload)
| PrintFailedToSend (response_text : string)
| PrintSentSuccessfully (titles : list string)
| PrintError (e : exn)
| Sleep (seconds : Z).

(** ** State and the monad of methods *)

(** The mutable fields: [BookshelfScanner.last_scan],
    [MediaTracker.last_update_time]; the number of times the clock has been
    read; and the events so far, oldest first. *)
Record World := mkWorld {
  last_scan : gset string;
  last_update_time : datetime;
  ticks : nat;
  trace : list Event
}.

Definition M (A : Type) : Type := World -> result A * World.

Definition ret {A} (a : A) : M A := fun w => (Ok a, w).

Definition raise {A} (e : exn) : M A := fun w => (Raise e, w).

Definition bind {A B} (m : M A) (k : A -> M B) : M B :=
  fun w =>
    match m w with
    | (Ok a, w') => k a w'
    | (Raise e, w') => (Raise e, w')
    end.

Notation "'let*' x ':=' m 'in' k" := (bind m (fun x => k))
  (at level 10, x name, m at level 100, k at level 200).

Definition lift {A} (r : result A) : M A := fun w => (r, w).

Definition gets {A} (f : World -> A) : M A := fun w => (Ok (f w), w).

Definition modify (f : World -> World) : M unit := fun w => (Ok tt, f w).

(** [try: body except Exception as e: handler(e)]. *)
Definition try_except {A} (body : M A) (handler : exn -> M A) : M A :=
  fun w =>
    match body w with
    | (Ok a, w') => (Ok a, w')
    | (Raise e, w') => handler e w'
    end.

Definition emit (ev : Event) : M unit :=
  modify (fun w => mkWorld (last_scan w) (last_update_time w) (ticks w)
                           (trace w ++ [ev])).

Definition set_last_scan (s : gset string) : M unit :=
  modify (fun w => mkWorld s (last_update_time w) (ticks w) (trace w)).

Definition set_last_update_time (t : datetime) : M unit :=
  modify (fun w => mkWorld (last_scan w) t (ticks w) (trace w)).

(** A list comprehension [[elt(x) for x in l if cond(x)]]: [item x] is one
    iteration, the condition and then the element; [None] when the
    condition is false. *)
Fixpoint comprehension {A B} (item : A -> M (option B)) (l : list A)
  : M (list B) :=
  match l with
  | [] => ret []
  | x :: l' =>
      let* o := item x in
      let* ys := comprehension item l' in
      ret (match o with Some y => y :: ys | None => ys end)
  end.

(** [json.dumps] of the value given as [json=] to [requests.post]: a
    [MediaItem] is an object of a [BaseModel] class and a [datetime] is a
    [datetime] object, and the encoder of the standard library takes
    neither.  The payload of [process_data] holds the collected items as
    they are, so it is encoded only when the three lists are empty; the
    payload of [send_update_to_api] is [update.dict()], whose [date] is a
    [datetime]. *)
Definition json_encodable (p : Payload) : bool :=
  match p with
  | LlamaPayload data _ =>
      match audiobooks data, music data, physical_books data with
      | [], [], [] => true
      | _, _, _ => false
      end
  | UpdatePayload _ => false
  end.

(** [requests.post(url, json=payload)]: the request is prepared first, and
    [json.dumps] raises [TypeError] on a payload it cannot encode; then the
    endpoint is reached, [outcome] being what happens there. *)
Definition requests_post (url : string) (payload : Payload)
    (outcome : result Response) : M Response :=
  let* _ := emit (RequestsPost url payload) in
  if json_encodable payload then lift outcome else raise TypeError.

(** ** Operations on Python values *)

(** [d[key]] on a dictionary. *)
Definition getitem (d : gmap string pyval) (key : string) : result pyval :=
  match d !! key with
  | Some v => Ok v
  | None => Raise (KeyError key)
  end.

(** [v[key]] with a string key on any value: only a dictionary answers. *)
Definition subscript (v : pyval) (key : string) : result pyval :=
  match v with
  | PDict d => getitem d key
  | _ => Raise TypeError
  end.

(** [for item in v]: a list gives its elements, a dictionary its keys, a
    string its characters; nothing else is iterable. *)
Definition iterate (v : pyval) : result (list pyval) :=
  match v with
  | PList l => Ok l
  | PDict d => Ok (PStr <$> (map_to_list d).*1)
  | PStr s => Ok ((fun c => PStr (String c EmptyString)) <$> Stdlib.Strings.String.list_ascii_of_string s)
  | _ => Raise TypeError
  end.

(** [v > t] for a datetime [t]: only a datetime compares with a datetime. *)
Definition gt_datetime (v : pyval) (t : datetime) : result (datetime * bool) :=
  match v with
  | PTime d => Ok (d, bool_decide (d > t))
  | _ => Raise TypeError
  end.

(** Validation of a [str] field by [BaseModel]. *)
Definition validate_str (v : pyval) : result string :=
  match v with
  | PStr s => Ok s
  | _ => Raise ValidationError
  end.

(** [MediaItem(title=.., creator=.., type=.., timestamp=..)].  The
    timestamp is a datetime at each of the three places that build an item:
    the result of [datetime.now()] or of [datetime.fromisoformat], or a
    value that has just been compared with a datetime. *)
Definition MediaItem_new (title creator type : pyval) (timestamp : datetime)
  : result MediaItem :=
  match validate_str title, validate_str creator, validate_str type with
  | Ok t, Ok c, Ok ty => Ok (mkMediaItem t c ty timestamp)
  | _, _, _ => Raise ValidationError
  end.

(** ** The placeholder clients *)

(** [timedelta(days=d)] and [timedelta(hours=h)], in microseconds. *)
Definition timedelta_days (d : Z) : Z := d * 86400000000.

Definition timedelta_hours (h : Z) : Z := h * 3600000000.

(** [AudibleClient.get_user_library]: ten records; [now i] is what
    [datetime.now()] reads when the record for [i] is built. *)
Definition AudibleClient_get_user_library (now : nat -> datetime)
  : list (gmap string pyval) :=
  (fun i : nat =>
     list_to_map [("title", PStr ("Audiobook " ++ pretty i));
                  ("author", PStr ("Author " ++ pretty i));
                  ("date_added", PTime (now i - timedelta_days (Z.of_nat i)))])
  <$> seq 0 10.

(** [SpotifyClient.get_recently_played]: five records. *)
Definition SpotifyClient_get_recently_played (now : nat -> datetime)
  : list (gmap string pyval) :=
  (fun i : nat =>
     list_to_map [("track", PStr ("Song " ++ pretty i));
                  ("artist", PStr ("Artist " ++ pretty i));
                  ("played_at", PTime (now i - timedelta_hours (Z.of_nat i)))])
  <$> seq 0 5.

(** ** Sample data *)

(** A clock that starts at 1000 and advances by one at each reading, and a
    date parser that knows a single date. *)
Definition sample_clock (n : nat) : datetime := 1000 + Z.of_nat n.

Definition sample_parse_iso (s : string) : option datetime :=
  if String.eqb s "2024-05-01T08:00:00" then Some 500 else None.

(** A tracker that has seen two books and was last updated at time 100. *)
Definition seen_two : World := mkWorld {["Book 1"; "Book 2"]} 100 O [].

(** A tracker that has seen one book. *)
Definition seen_one : World := mkWorld {["Book 1"]} 100 O [].

Definition spine : Rect := mkRect 10 20 60 300.
Definition speck : Rect := mkRect 5 5 10 10.

Definition dune : gmap string pyval :=
  list_to_map [("title", PStr "Dune"); ("author", PStr "Frank Herbert");
               ("date_added", PTime 200)].

Definition emma : gmap string pyval :=
  list_to_map [("title", PStr "Emma"); ("author", PStr "Jane Austen");
               ("date_added", PTime 50)].

Definition solaris : gmap string pyval :=
  list_to_map [("title", PStr "Solaris"); ("author", PStr "Stanislaw Lem");
               ("date_added", PTime 300)].

(** A record of the library with no title. *)
Definition untitled : gmap string pyval :=
  list_to_map [("author", PStr "Anonymous"); ("date_added", PTime 300)].

Definition song : gmap string pyval :=
  list_to_map [("track", PStr "Blue"); ("artist", PStr "Joni Mitchell");
               ("played_at", PTime 150)].

Definition old_song : gmap string pyval :=
  list_to_map [("track", PStr "Help"); ("artist", PStr "The Beatles");
               ("played_at", PTime 100)].

Definition answer_record : pyval :=
  PDict (list_to_map [("title", PStr "Dune"); ("creator", PStr "Frank Herbert");
                      ("type", PStr "audiobook");
                      ("timestamp", PStr "2024-05-01T08:00:00")]).

(** A record of the server's answer with no title. *)
Definition answer_untitled : pyval :=
  PDict (list_to_map [("creator", PStr "Anonymous"); ("type", PStr "audiobook");
                      ("timestamp", PStr "2024-05-01T08:00:00")]).

Definition answer (items : list pyval) : Response :=
  mkResponse 200 "OK" (Ok (PDict (list_to_map [("new_items", PList items)]))).

Definition server_error : Response :=
  mkResponse 500 "Internal Server Error" (Raise ValueError).

Definition unavailable : Response :=
  mkResponse 503 "Service Unavailable" (Raise ValueError).

Definition accepted : Response := mkResponse 200 "OK" (Raise ValueError).

(** The camera reads a frame in which nothing is large enough for a book. *)
Definition env_empty_shelf : Env :=
  mkEnv (Ok []) (Ok []) (Some [speck]) (Ok (answer [])) (Ok accepted).

(** The camera reads no frame. *)
Definition env_no_frame : Env :=
  mkEnv (Ok []) (Ok []) None (Ok (answer [])) (Ok accepted).

(** One book on the shelf, then two. *)
Definition env_one_book : Env :=
  mkEnv (Ok []) (Ok []) (Some [spine]) (Ok (answer [])) (Ok accepted).

Definition env_two_books : Env :=
  mkEnv (Ok []) (Ok []) (Some [spine; speck; spine]) (Ok (answer []))
        (Ok accepted).

(** Well-formed snapshots of both libraries. *)
Definition env_libraries : Env :=
  mkEnv (Ok [dune; emma]) (Ok [song; old_song]) (Some []) (Ok (answer []))
        (Ok accepted).

(** Spotify raises; Audible returns two records added after the watermark. *)
Definition env_spotify_down : Env :=
  mkEnv (Ok [dune; solaris]) (Raise (ClientError "spotify unavailable"))
        (Some [spine]) (Ok (answer [answer_record])) (Ok accepted).

(** Nothing is new in either library and one book is on the shelf; the
    LLaMA server answers 500. *)
Definition env_llama_500 : Env :=
  mkEnv (Ok [emma]) (Ok [old_song]) (Some [spine])
        (Ok server_error) (Ok accepted).

(** The library holds a record with no title before a well-formed one. *)
Definition env_bad_record : Env :=
  mkEnv (Ok [untitled; dune]) (Ok []) (Some []) (Ok (answer [answer_record]))
        (Ok accepted).

(** Nothing is new in either library and two books are on the shelf; the
    server's answer holds a record with no title before a well-formed
    one. *)
Definition env_bad_answer : Env :=
  mkEnv (Ok [emma]) (Ok [old_song]) (Some [spine; spine])
        (Ok (answer [answer_untitled; answer_record])) (Ok accepted).

(** Nothing is new in either library and two books are on the shelf; the
    LLaMA server answers with one record; the API endpoint would answer
    503. *)
Definition env_api_503 : Env :=
  mkEnv (Ok [emma]) (Ok [old_song]) (Some [spine; spine])
        (Ok (answer [answer_record])) (Ok unavailable).

(** The readings of the clock by the placeholder clients, and an outside
    world in which both placeholder clients answer. *)
Definition sample_now (i : nat) : datetime := 2000 + Z.of_nat i.

Definition env_placeholders : Env :=
  mkEnv (Ok (AudibleClient_get_user_library sample_now))
        (Ok (SpotifyClient_get_recently_played sample_now))
        (Some [spine]) (Ok (answer [])) (Ok accepted).

(** ** The program *)

Section Program.

Set Default Proof Using "Type".

(** [datetime.now()]: the [n]-th reading of the clock by the tracker. *)
Variable clock : nat -> datetime.

(** [datetime.fromisoformat] on a string: [None] when it raises
    [ValueError]. *)
Variable parse_iso : string -> option datetime.

Definition datetime_now : M datetime :=
  fun w => (Ok (clock (ticks w)),
            mkWorld (last_scan w) (last_update_time w) (S (ticks w)) (trace w)).

(** [datetime.fromisoformat(v)]: a [TypeError] on anything but a string. *)
Definition fromisoformat (v : pyval) : result datetime :=
  match v with
  | PStr s => match parse_iso s with Some t => Ok t | None => Raise ValueError end
  | _ => Raise TypeError
  end.

(** *** BookshelfScanner *)

(** [capture_image]: the frame of [self.camera.read()], which may be
    [None]. *)
Definition capture_image (env : Env) : M (option Image) :=
  ret (camera_frame env).

(** The loop of [process_image] over the contours: a rectangle wider than 50
    and taller than 200 adds the title [f"Book {len(book_titles) + 1}"]. *)
Definition process_contour (book_titles : list string) (r : Rect) : list string :=
  if bool_decide (rw r > 50) && bool_decide (rh r > 200)
  then book_titles ++ ["Book " ++ pretty (length book_titles + 1)%nat]
  else book_titles.

(** [process_image]: [cv2.cvtColor] raises on a frame that is [None]. *)
Definition process_image (image : option Image) : M (list string) :=
  match image with
  | None => raise CvError
  | Some contours => ret (fold_left process_contour contours [])
  end.

(** [get_new_books]: [list(new_books)] lists the set in the order of
    [elements]; Python fixes no order for it. *)
Definition get_new_books (env : Env) : M (list string) :=
  let* image := capture_image env in
  let* titles := process_image image in
  let current_books : gset string := list_to_set titles in
  let* seen := gets last_scan in
  let new_books := current_books ∖ seen in
  let* _ := set_last_scan current_books in
  ret (elements new_books).

(** *** LLaMAv3Client *)

Definition process_data (env : Env) (server_url : string)
    (data : Collected) (prompt : string) : M pyval :=
  let* response :=
    requests_post (server_url ++ "/process") (LlamaPayload data prompt)
                  (llama_post env) in
  if bool_decide (status_code response = 200)
  then
    let* body := lift (json response) in
    lift (subscript body "new_items")
  else raise (ServerError (text response)).

(** *** MediaTracker *)

Definition llama_server_url : string := "https://ajaymisra.com/llama".
Definition api_endpoint : string := "https://api.ajay.dog/media-updates".

(** One iteration of the comprehension of [get_new_audiobooks]: the
    condition [book["date_added"] > self.last_update_time], then the item. *)
Definition audiobook_item (book : gmap string pyval) : M (option MediaItem) :=
  let* added := lift (getitem book "date_added") in
  let* last := gets last_update_time in
  let* c := lift (gt_datetime added last) in
  if c.2 then
    let* t := lift (getitem book "title") in
    let* a := lift (getitem book "author") in
    let* item := lift (MediaItem_new t a (PStr "audiobook") c.1) in
    ret (Some item)
  else ret None.

Definition get_new_audiobooks (env : Env) : M (list MediaItem) :=
  let* library := lift (audible_library env) in
  comprehension audiobook_item library.

(** One iteration of the comprehension of [get_new_music]. *)
Definition music_item (track : gmap string pyval) : M (option MediaItem) :=
  let* played := lift (getitem track "played_at") in
  let* last := gets last_update_time in
  let* c := lift (gt_datetime played last) in
  if c.2 then
    let* t := lift (getitem track "track") in
    let* a := lift (getitem track "artist") in
    let* item := lift (MediaItem_new t a (PStr "music") c.1) in
    ret (Some item)
  else ret None.

Definition get_new_music (env : Env) : M (list MediaItem) :=
  let* recent_tracks := lift (spotify_recent env) in
  comprehension music_item recent_tracks.

(** One iteration of the comprehension of [get_new_physical_books]. *)
Definition physical_book_item (title : string) : M (option MediaItem) :=
  let* now := datetime_now in
  let* item := lift (MediaItem_new (PStr title) (PStr "Unknown")
                                   (PStr "physical_book") now) in
  ret (Some item).

Definition get_new_physical_books (env : Env) : M (list MediaItem) :=
  let* new_books := get_new_books env in
  comprehension physical_book_item new_books.

(** The values of the dictionary literal are evaluated in the order they
    are written. *)
Definition collect_new_data (env : Env) : M Collected :=
  let* a := get_new_audiobooks env in
  let* m := get_new_music env in
  let* p := get_new_physical_books env in
  ret (mkCollected a m p).

Definition llama_prompt : string := "
        Given the list of new items in the user's media collection (audiobooks, music, and physical books),
        please identify and return only the new items that have been added since the last update.
        Do not make any recommendations or suggestions. Simply return the list of new items with their details.
        ".

Definition process_with_llama (env : Env) (data : Collected) : M pyval :=
  process_data env llama_server_url data llama_prompt.

(** One iteration of the comprehension of [generate_daily_update]. *)
Definition processed_item (item : pyval) : M (option MediaItem) :=
  let* t := lift (subscript item "title") in
  let* c := lift (subscript item "creator") in
  let* ty := lift (subscript item "type") in
  let* ts := lift (subscript item "timestamp") in
  let* d := lift (fromisoformat ts) in
  let* i := lift (MediaItem_new t c ty d) in
  ret (Some i).

Definition generate_daily_update (env : Env) : M DailyUpdate :=
  let* new_data := collect_new_data env in
  let* processed_data := process_with_llama env new_data in
  let* items := lift (iterate processed_data) in
  let* new_items := comprehension processed_item items in
  let* d := datetime_now in
  let update := mkDailyUpdate d new_items in
  let* now := datetime_now in
  let* _ := set_last_update_time now in
  ret update.

Definition send_update_to_api (env : Env) (update : DailyUpdate) : M unit :=
  let* response :=
    requests_post api_endpoint (UpdatePayload update) (api_post env) in
  if bool_decide (status_code response ≠ 200)
  then emit (PrintFailedToSend (text response))
  else ret tt.

(** The body of the [while True] of [run_daily]. *)
Definition run_daily_iteration (env : Env) : M unit :=
  let* _ :=
    try_except
      (let* update := generate_daily_update env in
       let* _ := send_update_to_api env update in
       emit (PrintSentSuccessfully (title <$> new_items update)))
      (fun e => emit (PrintError e)) in
  emit (Sleep 86400).

(** [run_daily] never returns; [run_daily n envs] is its first [n]
    iterations, the [i]-th one against the answers [envs i]. *)
Fixpoint run_daily (n : nat) (envs : nat -> Env) : M unit :=
  match n with
  | O => ret tt
  | S n' =>
      let* _ := run_daily_iteration (envs O) in
      run_daily n' (fun i => envs (S i))
  end.

(** ** Observations used by the statements *)

(** What [self.process_image(self.capture_image())] evaluates to: the
    snapshot of the shelf, or the exception of a failed capture. *)
Definition vision_snapshot (env : Env) : result (list string) :=
  match camera_frame env with
  | None => Raise CvError
  | Some contours => Ok (fold_left process_contour contours [])
  end.

(** The fields a well-formed record of the Audible library carries. *)
Definition audiobook_fields (book : gmap string pyval)
  : option (string * string * datetime) :=
  match book !! "title", book !! "author", book !! "date_added" with
  | Some (PStr t), Some (PStr a), Some (PTime d) => Some (t, a, d)
  | _, _, _ => None
  end.

(** The fields a well-formed record of Spotify's recent tracks carries. *)
Definition track_fields (track : gmap string pyval)
  : option (string * string * datetime) :=
  match track !! "track", track !! "artist", track !! "played_at" with
  | Some (PStr t), Some (PStr a), Some (PTime d) => Some (t, a, d)
  | _, _, _ => None
  end.

(** The item a well-formed record normalizes to. *)
Definition item_of (kind : string) (r : string * string * datetime) : MediaItem :=
  mkMediaItem r.1.1 r.1.2 kind r.2.

(** The records observed strictly after the watermark. *)
Definition after (t : datetime) (rows : list (string * string * datetime))
  : list (string * string * datetime) :=
  filter (fun r => r.2 > t) rows.

(** The updates handed to [requests.post] for the API endpoint. *)
Fixpoint reports (tr : list Event) : list DailyUpdate :=
  match tr with
  | [] => []
  | RequestsPost _ (UpdatePayload u) :: tr' => u :: reports tr'
  | _ :: tr' => reports tr'
  end.

(** The collections handed to [requests.post] for the LLaMA server. *)
Fixpoint disambiguations (tr : list Event) : list Collected :=
  match tr with
  | [] => []
  | RequestsPost _ (LlamaPayload d _) :: tr' => d :: disambiguations tr'
  | _ :: tr' => disambiguations tr'
  end.

(** The durations slept. *)
Fixpoint sleeps (tr : list Event) : list Z :=
  match tr with
  | [] => []
  | Sleep s :: tr' => s :: sleeps tr'
  | _ :: tr' => sleeps tr'
  end.

(** An adapter raises during collection: a client call raises, or no frame
    is read and [process_image] raises on it. *)
Definition adapter_raises (env : Env) : Prop :=
  is_ok (audible_library env) = false ∨
  is_ok (spotify_recent env) = false ∨
  is_ok (vision_snapshot env) = false.

(** A status code outside 200..299. *)
Definition non_2xx (r : Response) : Prop :=
  status_code r < 200 ∨ 300 <= status_code r.

(** The world with more events. *)
Definition logged (w : World) (evs : list Event) : World :=
  mkWorld (last_scan w) (last_update_time w) (ticks w) (trace w ++ evs).

(** A comprehension whose iterations read the state and leave it as it is:
    [f] is one iteration as a function. *)
Fixpoint traverse {A B} (f : A -> result (option B)) (l : list A)
  : result (list B) :=
  match l with
  | [] => Ok []
  | x :: l' =>
      match f x with
      | Raise e => Raise e
      | Ok o =>
          match traverse f l' with
          | Raise e => Raise e
          | Ok ys => Ok (match o with Some y => y :: ys | None => ys end)
          end
      end
  end.

(** One iteration of each comprehension as a function of what it reads:
    the iteration run on a state with the given watermark. *)
Definition audiobook_row (last : datetime) (book : gmap string pyval)
  : result (option MediaItem) :=
  (audiobook_item book (mkWorld ∅ last O [])).1.

Definition music_row (last : datetime) (track : gmap string pyval)
  : result (option MediaItem) :=
  (music_item track (mkWorld ∅ last O [])).1.

Definition processed_row (item : pyval) : result (option MediaItem) :=
  (processed_item item (mkWorld ∅ 0 O [])).1.

(** What [process_data] evaluates to once its request has reached the
    server, given the answer of the server. *)
Definition llama_answer (env : Env) : result pyval :=
  match llama_post env with
  | Raise e => Raise e
  | Ok response =>
      if bool_decide (status_code response = 200)
      then match json response with
           | Raise e => Raise e
           | Ok body => subscript body "new_items"
           end
      else Raise (ServerError (text response))
  end.

(** The items the comprehension of [generate_daily_update] builds from that
    answer. *)
Definition llama_items (env : Env) : result (list MediaItem) :=
  match llama_answer env with
  | Raise e => Raise e
  | Ok processed_data =>
      match iterate processed_data with
      | Raise e => Raise e
      | Ok items => traverse processed_row items
      end
  end.

(** The items [generate_daily_update] gets for the collected [data]: the
    request must be encoded before the server answers. *)
Definition cycle_items (env : Env) (data : Collected)
  : result (list MediaItem) :=
  if json_encodable (LlamaPayload data llama_prompt)
  then llama_items env
  else Raise TypeError.

(** The lines [send_update_to_api] and [run_daily] print about a delivery:
    the failure of one, or its success. *)
Fixpoint delivery_lines (tr : list Event) : list Event :=
  match tr with
  | [] => []
  | PrintFailedToSend t :: tr' => PrintFailedToSend t :: delivery_lines tr'
  | PrintSentSuccessfully l :: tr' =>
      PrintSentSuccessfully l :: delivery_lines tr'
  | _ :: tr' => delivery_lines tr'
  end.

(** The items built from the new titles when the clock has been read [n]
    times before. *)
Definition shelf_items (n : nat) (new_books : list string) : list MediaItem :=
  imap (fun k t => mkMediaItem t "Unknown" "physical_book" (clock (n + k))) new_books.

(** Some raw item of the cycle fails to normalize: a record of the Audible
    library or of Spotify's tracks on which the iteration of its
    comprehension raises, or a record of the server's answer on which the
    iteration of [generate_daily_update] raises. *)
Definition malformed_item (env : Env) (w : World) : Prop :=
  (exists library book, audible_library env = Ok library ∧ book ∈ library ∧
     is_ok (audiobook_row (last_update_time w) book) = false) ∨
  (exists tracks track, spotify_recent env = Ok tracks ∧ track ∈ tracks ∧
     is_ok (music_row (last_update_time w) track) = false) ∨
  (exists processed_data items item, llama_answer env = Ok processed_data ∧
     iterate processed_data = Ok items ∧ item ∈ items ∧
     is_ok (processed_row item) = false).

(** The titles of a snapshot that the seen-set does not hold. *)
Definition unseen (titles : list string) (seen : gset string) : list string :=
  elements (list_to_set titles ∖ seen : gset string).

(** ** The tracker at start, and the labels of the scanner *)

(** [MediaTracker.__init__], with [BookshelfScanner.__init__] inside it:
    an empty seen-set, and a watermark one day before the reading of the
    clock, which is the first reading of the program. *)
Definition MediaTracker_init : World :=
  mkWorld ∅ (clock O - timedelta_days 1) 1 [].

(** The program under [if __name__ == "__main__"], as far as its first [n]
    iterations. *)
Definition main (n : nat) (envs : nat -> Env) : result unit * World :=
  run_daily n envs MediaTracker_init.

(** The condition of [process_image] on a bounding rectangle. *)
Definition large (r : Rect) : bool :=
  bool_decide (rw r > 50) && bool_decide (rh r > 200).

Definition count_large (contours : Image) : nat :=
  length (List.filter large contours).

(** The title given to the book found after [i] others. *)
Definition book_label (i : nat) : string := "Book " ++ pretty (i + 1)%nat.

Definition book_labels (k : nat) : list string := book_label <$> seq 0 k.

(** ** Lemmas on the monad *)

Ltac run :=
  unfold requests_post, bind, lift, ret, raise, gets, emit, set_last_scan,
    set_last_update_time, try_except, datetime_now; unfold modify; simpl.

Lemma comprehension_traverse {A B} (item : A -> M (option B))
    (f : A -> result (option B)) (w : World) (l : list A) :
  (forall x, item x w = (f x, w)) ->
  comprehension item l w = (traverse f l, w).
Proof.
  intros Hitem. induction l as [|x l IH]; simpl; [reflexivity|].
  unfold bind at 1. rewrite Hitem. destruct (f x) as [o|e]; [|reflexivity].
  unfold bind at 1. rewrite IH. destruct (traverse f l); reflexivity.
Qed.

Lemma traverse_raises {A B} (f : A -> result (option B)) (l : list A) (x : A) :
  x ∈ l -> is_ok (f x) = false -> is_ok (traverse f l) = false.
Proof.
  intros Hin Hx. induction l as [|y l IH]; [by apply not_elem_of_nil in Hin|].
  simpl. apply elem_of_cons in Hin as [->|Hin].
  - destruct (f y); [discriminate|reflexivity].
  - destruct (f y); [|reflexivity].
    specialize (IH Hin). destruct (traverse f l); [discriminate|reflexivity].
Qed.

Lemma traverse_ext {A B} (f g : A -> result (option B)) (l : list A) :
  (forall x, f x = g x) -> traverse f l = traverse g l.
Proof.
  intros Hfg. induction l as [|x l IH]; simpl; [reflexivity|].
  by rewrite Hfg, IH.
Qed.

(** ** The scalar-watermark collectors *)

Lemma audiobook_item_row (book : gmap string pyval) (w : World) :
  audiobook_item book w = (audiobook_row (last_update_time w) book, w).
Proof.
  unfold audiobook_row, audiobook_item. run.
  destruct (getitem book "date_added") as [v|]; simpl; [|reflexivity].
  destruct (gt_datetime v (last_update_time w)) as [[d []]|]; simpl; [|reflexivity..].
  destruct (getitem book "title"); simpl; [|reflexivity].
  destruct (getitem book "author"); simpl; [|reflexivity].
  destruct (MediaItem_new _ _ _ _); reflexivity.
Qed.

Lemma music_item_row (track : gmap string pyval) (w : World) :
  music_item track w = (music_row (last_update_time w) track, w).
Proof.
  unfold music_row, music_item. run.
  destruct (getitem track "played_at") as [v|]; simpl; [|reflexivity].
  destruct (gt_datetime v (last_update_time w)) as [[d []]|]; simpl; [|reflexivity..].
  destruct (getitem track "track"); simpl; [|reflexivity].
  destruct (getitem track "artist"); simpl; [|reflexivity].
  destruct (MediaItem_new _ _ _ _); reflexivity.
Qed.

Lemma processed_item_row (item : pyval) (w : World) :
  processed_item item w = (processed_row item, w).
Proof.
  unfold processed_row, processed_item. run.
  destruct (subscript item "title"); simpl; [|reflexivity].
  destruct (subscript item "creator"); simpl; [|reflexivity].
  destruct (subscript item "type"); simpl; [|reflexivity].
  destruct (subscript item "timestamp") as [ts|]; simpl; [|reflexivity].
  destruct (fromisoformat ts); simpl; [|reflexivity].
  destruct (MediaItem_new _ _ _ _); reflexivity.
Qed.

Lemma get_new_audiobooks_eq (env : Env) (w : World) :
  get_new_audiobooks env w =
  (match audible_library env with
   | Raise e => Raise e
   | Ok library => traverse (audiobook_row (last_update_time w)) library
   end, w).
Proof.
  unfold get_new_audiobooks. run.
  destruct (audible_library env) as [library|]; [|reflexivity].
  apply comprehension_traverse. intros book. apply audiobook_item_row.
Qed.

Lemma get_new_music_eq (env : Env) (w : World) :
  get_new_music env w =
  (match spotify_recent env with
   | Raise e => Raise e
   | Ok recent_tracks => traverse (music_row (last_update_time w)) recent_tracks
   end, w).
Proof.
  unfold get_new_music. run.
  destruct (spotify_recent env) as [tracks|]; [|reflexivity].
  apply comprehension_traverse. intros track. apply music_item_row.
Qed.

Lemma audiobook_row_fields (last : datetime) (book : gmap string pyval)
    (r : string * string * datetime) :
  audiobook_fields book = Some r ->
  audiobook_row last book =
  Ok (if bool_decide (r.2 > last) then Some (item_of "audiobook" r) else None).
Proof.
  unfold audiobook_fields, audiobook_row, audiobook_item, getitem. run.
  destruct (book !! "title") as [[]|]; try discriminate.
  destruct (book !! "author") as [[]|]; try discriminate.
  destruct (book !! "date_added") as [[]|]; try discriminate.
  intros [= <-]. simpl. by case_bool_decide.
Qed.

Lemma music_row_fields (last : datetime) (track : gmap string pyval)
    (r : string * string * datetime) :
  track_fields track = Some r ->
  music_row last track =
  Ok (if bool_decide (r.2 > last) then Some (item_of "music" r) else None).
Proof.
  unfold track_fields, music_row, music_item, getitem. run.
  destruct (track !! "track") as [[]|]; try discriminate.
  destruct (track !! "artist") as [[]|]; try discriminate.
  destruct (track !! "played_at") as [[]|]; try discriminate.
  intros [= <-]. simpl. by case_bool_decide.
Qed.

Lemma traverse_rows {A} (fields : A -> option (string * string * datetime))
    (row : A -> result (option MediaItem)) (kind : string) (last : datetime)
    (l : list A) (rows : list (string * string * datetime)) :
  (forall x r, fields x = Some r ->
     row x = Ok (if bool_decide (r.2 > last) then Some (item_of kind r) else None)) ->
  Forall2 (fun x r => fields x = Some r) l rows ->
  traverse row l = Ok (item_of kind <$> after last rows).
Proof.
  intros Hrow Hall. induction Hall as [|x r l rows Hx _ IH]; simpl; [reflexivity|].
  rewrite (Hrow _ _ Hx), IH. unfold after.
  destruct (decide (r.2 > last)) as [Hgt|Hle].
  - rewrite bool_decide_eq_true_2, filter_cons_True by done. reflexivity.
  - rewrite bool_decide_eq_false_2, filter_cons_False by done. reflexivity.
Qed.

(** ** The vision collector *)

Lemma get_new_books_eq (env : Env) (w : World) :
  get_new_books env w =
  match vision_snapshot env with
  | Raise e => (Raise e, w)
  | Ok titles =>
      (Ok (unseen titles (last_scan w)),
       mkWorld (list_to_set titles) (last_update_time w) (ticks w) (trace w))
  end.
Proof.
  unfold get_new_books, vision_snapshot, capture_image, process_image. run.
  destruct (camera_frame env); reflexivity.
Qed.

Lemma physical_book_comprehension (new_books : list string) (w : World) :
  comprehension physical_book_item new_books w =
  (Ok (shelf_items (ticks w) new_books),
   mkWorld (last_scan w) (last_update_time w)
           (ticks w + length new_books) (trace w)).
Proof.
  revert w. induction new_books as [|t l IH]; intros w.
  - simpl. unfold ret. destruct w. simpl. by rewrite Nat.add_0_r.
  - simpl. unfold bind at 1. unfold physical_book_item at 1. run.
    rewrite IH. simpl. unfold shelf_items. simpl.
    rewrite Nat.add_0_r. do 2 f_equal.
    + f_equal. apply imap_ext. intros k x _. simpl. do 2 f_equal. lia.
    + f_equal. lia.
Qed.

Lemma get_new_physical_books_eq (env : Env) (w : World) :
  get_new_physical_books env w =
  match vision_snapshot env with
  | Raise e => (Raise e, w)
  | Ok titles =>
      let new_books := unseen titles (last_scan w) in
      (Ok (shelf_items (ticks w) new_books),
       mkWorld (list_to_set titles) (last_update_time w)
               (ticks w + length new_books) (trace w))
  end.
Proof.
  unfold get_new_physical_books. unfold bind. rewrite get_new_books_eq.
  destruct (vision_snapshot env) as [titles|]; [|reflexivity].
  rewrite physical_book_comprehension. reflexivity.
Qed.

Lemma unseen_spec (titles : list string) (seen : gset string) (t : string) :
  t ∈ unseen titles seen <-> t ∈ titles ∧ t ∉ seen.
Proof.
  unfold unseen. by rewrite elem_of_elements, elem_of_difference,
    elem_of_list_to_set.
Qed.

Lemma unseen_NoDup (titles : list string) (seen : gset string) :
  NoDup (unseen titles seen).
Proof. apply NoDup_elements. Qed.

Lemma shelf_items_title (n : nat) (l : list string) :
  title <$> shelf_items n l = l.
Proof.
  unfold shelf_items. revert n. induction l as [|t l IH]; intros n; [reflexivity|].
  simpl. f_equal. rewrite <- (IH (S n)) at 2. f_equal.
  apply imap_ext. intros k x _. simpl. do 2 f_equal. lia.
Qed.

Lemma shelf_items_lookup (n k : nat) (l : list string) (i : MediaItem) :
  shelf_items n l !! k = Some i ->
  exists t, l !! k = Some t ∧
    i = mkMediaItem t "Unknown" "physical_book" (clock (n + k)).
Proof.
  unfold shelf_items. rewrite list_lookup_imap.
  destruct (l !! k) as [t|]; [|discriminate].
  simpl. intros [= <-]. by exists t.
Qed.

(** ** Collection and the daily update *)

Lemma collect_new_data_eq (env : Env) (w : World) :
  collect_new_data env w =
  match (get_new_audiobooks env w).1 with
  | Raise e => (Raise e, w)
  | Ok a =>
      match (get_new_music env w).1 with
      | Raise e => (Raise e, w)
      | Ok m =>
          match (get_new_physical_books env w).1 with
          | Raise e => (Raise e, w)
          | Ok p => (Ok (mkCollected a m p), (get_new_physical_books env w).2)
          end
      end
  end.
Proof.
  unfold collect_new_data. unfold bind. rewrite get_new_audiobooks_eq. simpl.
  destruct (match audible_library env with Raise e => _ | Ok l => _ end);
    [|reflexivity].
  rewrite get_new_music_eq. simpl.
  destruct (match spotify_recent env with Raise e => _ | Ok l => _ end);
    [|reflexivity].
  rewrite get_new_physical_books_eq.
  destruct (vision_snapshot env); reflexivity.
Qed.

Lemma process_with_llama_eq (env : Env) (data : Collected) (w : World) :
  process_with_llama env data w =
  (if json_encodable (LlamaPayload data llama_prompt)
   then llama_answer env
   else Raise TypeError,
   logged w [RequestsPost (llama_server_url ++ "/process")
                          (LlamaPayload data llama_prompt)]).
Proof.
  unfold process_with_llama, process_data, llama_answer, logged.
  unfold requests_post, bind, emit, modify, lift, raise, ret. cbn beta.
  destruct (json_encodable (LlamaPayload data llama_prompt)); [|reflexivity].
  destruct (llama_post env) as [r|]; simpl; [|reflexivity].
  case_bool_decide; [|reflexivity].
  destruct (json r); reflexivity.
Qed.

Lemma generate_daily_update_eq (env : Env) (w : World) :
  generate_daily_update env w =
  match collect_new_data env w with
  | (Raise e, w1) => (Raise e, w1)
  | (Ok new_data, w1) =>
      let w2 := logged w1 [RequestsPost (llama_server_url ++ "/process")
                                        (LlamaPayload new_data llama_prompt)] in
      match cycle_items env new_data with
      | Raise e => (Raise e, w2)
      | Ok new_items =>
          (Ok (mkDailyUpdate (clock (ticks w1)) new_items),
           mkWorld (last_scan w1) (clock (S (ticks w1))) (S (S (ticks w1)))
                   (trace w2))
      end
  end.
Proof.
  unfold generate_daily_update. unfold bind at 1.
  destruct (collect_new_data env w) as [[new_data|e] w1]; [|reflexivity].
  unfold bind at 1. rewrite process_with_llama_eq.
  unfold cycle_items, llama_items.
  destruct (json_encodable (LlamaPayload new_data llama_prompt));
    [|reflexivity].
  destruct (llama_answer env) as [processed_data|]; [|reflexivity].
  unfold bind at 1. unfold lift at 1.
  destruct (iterate processed_data) as [items|]; [|reflexivity].
  unfold bind at 1.
  rewrite (comprehension_traverse _ processed_row)
    by (intros x; apply processed_item_row).
  destruct (traverse processed_row items); reflexivity.
Qed.

Lemma collect_new_data_frame (env : Env) (w : World) :
  last_update_time (collect_new_data env w).2 = last_update_time w ∧
  trace (collect_new_data env w).2 = trace w.
Proof.
  rewrite collect_new_data_eq.
  destruct (get_new_audiobooks env w).1; [|done].
  destruct (get_new_music env w).1; [|done].
  rewrite get_new_physical_books_eq.
  destruct (vision_snapshot env); done.
Qed.

Lemma collect_new_data_ticks (env : Env) (w : World) :
  (ticks w <= ticks (collect_new_data env w).2)%nat.
Proof.
  rewrite collect_new_data_eq.
  destruct (get_new_audiobooks env w).1; [|done].
  destruct (get_new_music env w).1; [|done].
  rewrite get_new_physical_books_eq.
  destruct (vision_snapshot env); simpl; lia.
Qed.

Lemma logged_logged (w : World) (evs1 evs2 : list Event) :
  logged (logged w evs1) evs2 = logged w (evs1 ++ evs2).
Proof. unfold logged. simpl. by rewrite app_assoc. Qed.

Lemma send_update_to_api_eq (env : Env) (update : DailyUpdate) (w : World) :
  send_update_to_api env update w =
  (Raise TypeError,
   logged w [RequestsPost api_endpoint (UpdatePayload update)]).
Proof. reflexivity. Qed.

Lemma run_daily_iteration_eq (env : Env) (w : World) :
  run_daily_iteration env w =
  match generate_daily_update env w with
  | (Raise e, w1) => (Ok tt, logged w1 [PrintError e; Sleep 86400])
  | (Ok update, w1) =>
      match send_update_to_api env update w1 with
      | (Raise e, w2) => (Ok tt, logged w2 [PrintError e; Sleep 86400])
      | (Ok _, w2) =>
          (Ok tt, logged w2 [PrintSentSuccessfully (title <$> new_items update);
                             Sleep 86400])
      end
  end.
Proof.
  unfold run_daily_iteration, logged. run.
  destruct (generate_daily_update env w) as [[update|e] w1]; simpl.
  - destruct (send_update_to_api env update w1) as [[[]|e] w2]; simpl;
      by rewrite <- app_assoc.
  - by rewrite <- app_assoc.
Qed.

(** ** The seen-set of the scanner *)

(** C1 (as amended): a scan whose capture fails, [process_image] raising on
    the missing frame, leaves the seen-set and the rest of the state as they
    were; a scan whose snapshot is empty reports nothing new and replaces
    the seen-set with the empty set, as any other snapshot would. *)
Theorem C1_empty_snapshot_empties_seen_set (env : Env) (w : World) :
  (forall e, vision_snapshot env = Raise e ->
     get_new_books env w = (Raise e, w)) ∧
  (vision_snapshot env = Ok [] ->
     get_new_books env w =
     (Ok [], mkWorld ∅ (last_update_time w) (ticks w) (trace w))).
Proof.
  rewrite get_new_books_eq. split.
  - intros e ->. reflexivity.
  - intros ->. unfold unseen. simpl.
    by rewrite empty_difference_L, elements_empty.
Qed.

(** C5: for a non-empty snapshot, [get_new_books] returns the titles of the
    snapshot that are not in the prior seen-set, and the seen-set becomes
    exactly the set of titles of the snapshot; so a title missing from this
    scan and present in the next one is returned as new by the next scan,
    whatever the seen-set held before. *)
Theorem C5_seen_set_replaced_by_snapshot (env : Env) (w : World)
    (titles : list string) :
  vision_snapshot env = Ok titles ->
  titles ≠ [] ->
  let w' := (get_new_books env w).2 in
  (get_new_books env w).1 = Ok (unseen titles (last_scan w)) ∧
  (list_to_set (unseen titles (last_scan w)) : gset string) =
    list_to_set titles ∖ last_scan w ∧
  (forall t, t ∈ unseen titles (last_scan w) <-> t ∈ titles ∧ t ∉ last_scan w) ∧
  last_scan w' = list_to_set titles ∧
  (forall env2 titles2 t,
     vision_snapshot env2 = Ok titles2 -> t ∉ titles -> t ∈ titles2 ->
     exists delta2, (get_new_books env2 w').1 = Ok delta2 ∧ t ∈ delta2).
Proof.
  intros Hsnap _. simpl. rewrite get_new_books_eq, Hsnap. simpl.
  split; [reflexivity|]. split; [apply list_to_set_elements_L|].
  split; [apply unseen_spec|]. split; [reflexivity|].
  intros env2 titles2 t Hsnap2 Hnot Hin.
  rewrite get_new_books_eq, Hsnap2. simpl. eexists. split; [reflexivity|].
  apply unseen_spec. split; [exact Hin|]. by rewrite elem_of_list_to_set.
Qed.

(** C10: every item [get_new_physical_books] builds has creator "Unknown"
    and type "physical_book"; its timestamp is a reading of the clock taken
    while the items are built, the [k]-th item getting the [k]-th reading
    after the scan, which itself yields titles only; and the titles of the
    items are those of the snapshot outside the seen-set, each one once. *)
Theorem C10_physical_book_items (env : Env) (w w' : World)
    (items : list MediaItem) :
  get_new_physical_books env w = (Ok items, w') ->
  Forall (fun i => creator i = "Unknown" ∧ type i = "physical_book") items ∧
  (forall k i, items !! k = Some i ->
     timestamp i = clock (ticks w + k) ∧ (ticks w + k < ticks w')%nat) ∧
  NoDup (title <$> items) ∧
  exists titles, vision_snapshot env = Ok titles ∧
    (get_new_books env w).1 = Ok (title <$> items) ∧
    forall t, t ∈ title <$> items <-> t ∈ titles ∧ t ∉ last_scan w.
Proof.
  rewrite get_new_physical_books_eq, get_new_books_eq.
  destruct (vision_snapshot env) as [titles|]; [|discriminate].
  simpl. intros [= <- <-]. simpl. split; [|split; [|split]].
  - apply Forall_lookup. intros k i Hk.
    apply shelf_items_lookup in Hk as (t & _ & ->). done.
  - intros k i Hk. pose proof (lookup_lt_Some _ _ _ Hk) as Hlt.
    apply shelf_items_lookup in Hk as (t & Ht & ->). simpl.
    split; [reflexivity|]. unfold shelf_items in Hlt.
    rewrite length_imap in Hlt. lia.
  - rewrite shelf_items_title. apply unseen_NoDup.
  - exists titles. rewrite shelf_items_title.
    split; [reflexivity|]. split; [reflexivity|]. apply unseen_spec.
Qed.

(** ** The scalar watermark *)

(** C6: on a snapshot of well-formed records the delta is made of exactly
    the records observed strictly after [last_update_time], in order (one
    observed at or before it is left out); the collectors leave the state
    as it is, and their result is determined by the snapshot and the
    watermark alone. *)
Theorem C6_scalar_delta_strictly_after (env : Env) (w : World)
    (library tracks : list (gmap string pyval))
    (books played : list (string * string * datetime)) :
  audible_library env = Ok library ->
  spotify_recent env = Ok tracks ->
  Forall2 (fun b r => audiobook_fields b = Some r) library books ->
  Forall2 (fun t r => track_fields t = Some r) tracks played ->
  let last := last_update_time w in
  get_new_audiobooks env w = (Ok (item_of "audiobook" <$> after last books), w) ∧
  get_new_music env w = (Ok (item_of "music" <$> after last played), w) ∧
  (forall rows r, r ∈ after last rows <-> r ∈ rows ∧ r.2 > last) ∧
  (forall env' w',
     audible_library env' = audible_library env ->
     spotify_recent env' = spotify_recent env ->
     last_update_time w' = last ->
     (get_new_audiobooks env' w').1 = (get_new_audiobooks env w).1 ∧
     (get_new_music env' w').1 = (get_new_music env w).1 ∧
     (get_new_audiobooks env' w').2 = w' ∧
     (get_new_music env' w').2 = w').
Proof.
  intros Ha Hs Hbooks Hplayed. simpl.
  rewrite get_new_audiobooks_eq, get_new_music_eq, Ha, Hs.
  split; [|split; [|split]].
  - f_equal. eapply traverse_rows; [|exact Hbooks].
    intros x r. apply audiobook_row_fields.
  - f_equal. eapply traverse_rows; [|exact Hplayed].
    intros x r. apply music_row_fields.
  - intros rows r. unfold after. rewrite list_elem_of_filter.
    split; intros [? ?]; by split.
  - intros env' w' Ha' Hs' Hlast.
    rewrite get_new_audiobooks_eq, get_new_music_eq, Ha', Hs', Hlast.
    done.
Qed.

(** ** Failures inside a cycle *)

Lemma reports_app (tr1 tr2 : list Event) :
  reports (tr1 ++ tr2) = (reports tr1 ++ reports tr2)%list.
Proof.
  induction tr1 as [|ev tr1 IH]; simpl; [reflexivity|].
  destruct ev as [url []| | | |]; simpl; by rewrite IH.
Qed.

Lemma disambiguations_app (tr1 tr2 : list Event) :
  disambiguations (tr1 ++ tr2) = (disambiguations tr1 ++ disambiguations tr2)%list.
Proof.
  induction tr1 as [|ev tr1 IH]; simpl; [reflexivity|].
  destruct ev as [url []| | | |]; simpl; by rewrite IH.
Qed.

Lemma sleeps_app (tr1 tr2 : list Event) :
  sleeps (tr1 ++ tr2) = (sleeps tr1 ++ sleeps tr2)%list.
Proof.
  induction tr1 as [|ev tr1 IH]; simpl; [reflexivity|].
  destruct ev; simpl; by rewrite IH.
Qed.

Lemma llama_answer_not_200 (env : Env) (r : Response) :
  llama_post env = Ok r -> status_code r ≠ 200 ->
  llama_answer env = Raise (ServerError (text r)).
Proof.
  intros Hpost Hstatus. unfold llama_answer. rewrite Hpost.
  by rewrite bool_decide_eq_false_2.
Qed.

Lemma collect_raises_of_adapter (env : Env) (w : World) :
  adapter_raises env -> is_ok (collect_new_data env w).1 = false.
Proof.
  intros Hfail. rewrite collect_new_data_eq.
  rewrite get_new_audiobooks_eq, get_new_music_eq, get_new_physical_books_eq.
  simpl. destruct Hfail as [Ha|[Hs|Hv]].
  - destruct (audible_library env); [discriminate|reflexivity].
  - destruct (match audible_library env with Raise e => _ | Ok l => _ end);
      [|reflexivity].
    destruct (spotify_recent env); [discriminate|reflexivity].
  - destruct (match audible_library env with Raise e => _ | Ok l => _ end);
      [|reflexivity].
    destruct (match spotify_recent env with Raise e => _ | Ok l => _ end);
      [|reflexivity].
    destruct (vision_snapshot env); [discriminate|reflexivity].
Qed.

Lemma collect_raises_same_world (env : Env) (w : World) :
  is_ok (collect_new_data env w).1 = false -> (collect_new_data env w).2 = w.
Proof.
  rewrite collect_new_data_eq.
  destruct (get_new_audiobooks env w).1; [|reflexivity].
  destruct (get_new_music env w).1; [|reflexivity].
  destruct (get_new_physical_books env w).1; [discriminate|reflexivity].
Qed.

(** C2 (as amended): when an adapter raises during collection, the
    exception leaves [collect_new_data] and [generate_daily_update]; the
    cycle does not reach the LLaMA server, reports nothing, prints the
    error and sleeps, and both the seen-set and [last_update_time] are
    those of before the cycle. *)
Theorem C2_adapter_failure_aborts_cycle (env : Env) (w : World) :
  adapter_raises env ->
  exists e,
    generate_daily_update env w = (Raise e, w) ∧
    run_daily_iteration env w = (Ok tt, logged w [PrintError e; Sleep 86400]) ∧
    let w' := (run_daily_iteration env w).2 in
    disambiguations (trace w') = disambiguations (trace w) ∧
    reports (trace w') = reports (trace w) ∧
    last_scan w' = last_scan w ∧
    last_update_time w' = last_update_time w.
Proof.
  intros Hfail.
  pose proof (collect_raises_of_adapter env w Hfail) as Hraise.
  pose proof (collect_raises_same_world env w Hraise) as Hsame.
  rewrite run_daily_iteration_eq, generate_daily_update_eq.
  destruct (collect_new_data env w) as [[data|e] w1]; [discriminate|].
  simpl in Hsame. subst w1. exists e. simpl.
  rewrite disambiguations_app, reports_app. simpl.
  by rewrite !app_nil_r.
Qed.

(** C3: when the LLaMA server answers with a status outside 200..299, the
    cycle hands no update to the API endpoint and leaves [last_update_time]
    as it was; the next cycle therefore computes its scalar deltas against
    the same watermark, and a well-formed audiobook added after that
    watermark is in the next delta. *)
Theorem C3_failed_disambiguation_reports_nothing (env : Env) (w : World)
    (r : Response) :
  llama_post env = Ok r ->
  non_2xx r ->
  let w' := (run_daily_iteration env w).2 in
  reports (trace w') = reports (trace w) ∧
  last_update_time w' = last_update_time w ∧
  (forall env',
     (get_new_audiobooks env' w').1 = (get_new_audiobooks env' w).1 ∧
     (get_new_music env' w').1 = (get_new_music env' w).1) ∧
  (forall env' library books row,
     audible_library env' = Ok library ->
     Forall2 (fun b r => audiobook_fields b = Some r) library books ->
     row ∈ books -> row.2 > last_update_time w ->
     exists delta, (get_new_audiobooks env' w').1 = Ok delta ∧
                   item_of "audiobook" row ∈ delta).
Proof.
  intros Hpost Hstatus. simpl.
  assert (status_code r ≠ 200) as Hne by (unfold non_2xx in Hstatus; lia).
  pose proof (llama_answer_not_200 env r Hpost Hne) as Hanswer.
  pose proof (collect_new_data_frame env w) as [Htime Htrace].
  assert (reports (trace (run_daily_iteration env w).2) = reports (trace w) ∧
          last_update_time (run_daily_iteration env w).2 = last_update_time w)
    as [Hreports Hlast].
  { assert (forall data, is_ok (cycle_items env data) = false) as Hitems.
    { intros data. unfold cycle_items, llama_items. rewrite Hanswer.
      by destruct (json_encodable (LlamaPayload data llama_prompt)). }
    rewrite run_daily_iteration_eq, generate_daily_update_eq.
    destruct (collect_new_data env w) as [[data|e] w1]; simpl in *.
    - specialize (Hitems data).
      destruct (cycle_items env data); [discriminate|]. simpl.
      rewrite ?reports_app, Htrace; simpl; by rewrite ?app_nil_r.
    - rewrite ?reports_app, Htrace; simpl; by rewrite ?app_nil_r. }
  split; [exact Hreports|]. split; [exact Hlast|]. split.
  - intros env'. by rewrite !get_new_audiobooks_eq, !get_new_music_eq, Hlast.
  - intros env' library books row Hlib Hbooks Hin Hgt.
    rewrite get_new_audiobooks_eq, Hlib, Hlast. simpl.
    erewrite traverse_rows;
      [|intros x y; apply audiobook_row_fields|exact Hbooks].
    eexists. split; [reflexivity|].
    apply list_elem_of_fmap. exists row. split; [reflexivity|].
    unfold after. by apply list_elem_of_filter.
Qed.

Lemma generate_raises_of_malformed (env : Env) (w : World) :
  malformed_item env w -> is_ok (generate_daily_update env w).1 = false.
Proof.
  intros Hbad. rewrite generate_daily_update_eq, collect_new_data_eq.
  rewrite get_new_audiobooks_eq, get_new_music_eq. simpl.
  destruct Hbad as [(library & book & Hlib & Hin & Hrow)
                   |[(tracks & track & Htracks & Hin & Hrow)
                    |(processed & items & item & Hans & Hiter & Hin & Hrow)]].
  - rewrite Hlib.
    pose proof (traverse_raises _ _ _ Hin Hrow) as Htr.
    destruct (traverse _ library); [discriminate|reflexivity].
  - rewrite Htracks.
    destruct (match audible_library env with Raise e => _ | Ok l => _ end);
      [|reflexivity].
    pose proof (traverse_raises _ _ _ Hin Hrow) as Htr.
    destruct (traverse _ tracks); [discriminate|reflexivity].
  - assert (forall data, is_ok (cycle_items env data) = false) as Hitems.
    { intros data. unfold cycle_items, llama_items. rewrite Hans, Hiter.
      pose proof (traverse_raises _ _ _ Hin Hrow) as Htr.
      destruct (json_encodable (LlamaPayload data llama_prompt));
        [|reflexivity].
      destruct (traverse _ items); [discriminate|reflexivity]. }
    destruct (match audible_library env with Raise e => _ | Ok l => _ end);
      [|reflexivity].
    destruct (match spotify_recent env with Raise e => _ | Ok l => _ end);
      [|reflexivity].
    destruct (get_new_physical_books env w).1; [|reflexivity].
    match goal with
    | |- context [cycle_items env ?d] =>
        specialize (Hitems d); destruct (cycle_items env d)
    end; [discriminate|reflexivity].
Qed.

Lemma generate_raises_frame (env : Env) (w : World) :
  is_ok (generate_daily_update env w).1 = false ->
  reports (trace (generate_daily_update env w).2) = reports (trace w) ∧
  last_update_time (generate_daily_update env w).2 = last_update_time w.
Proof.
  pose proof (collect_new_data_frame env w) as [Htime Htrace].
  rewrite generate_daily_update_eq.
  destruct (collect_new_data env w) as [[data|e] w1]; simpl in *.
  - destruct (cycle_items env data); [discriminate|]. simpl. intros _.
    rewrite reports_app, Htrace. simpl. by rewrite app_nil_r.
  - intros _. by rewrite Htrace.
Qed.

(** C4 (as amended): when a raw item fails to normalize, be it a record of
    a client library or a record of the server's answer, the exception
    leaves the comprehension and [generate_daily_update]; the cycle is
    given up as a whole: the error is printed, no update is handed to the
    API endpoint and [last_update_time] stays as it was. *)
Theorem C4_malformed_item_aborts_cycle (env : Env) (w : World) :
  malformed_item env w ->
  exists e w1,
    generate_daily_update env w = (Raise e, w1) ∧
    run_daily_iteration env w = (Ok tt, logged w1 [PrintError e; Sleep 86400]) ∧
    reports (trace (run_daily_iteration env w).2) = reports (trace w) ∧
    last_update_time (run_daily_iteration env w).2 = last_update_time w.
Proof.
  intros Hbad.
  pose proof (generate_raises_of_malformed env w Hbad) as Hraise.
  pose proof (generate_raises_frame env w Hraise) as [Hreports Hlast].
  rewrite run_daily_iteration_eq.
  destruct (generate_daily_update env w) as [[update|e] w1]; [discriminate|].
  exists e, w1. simpl in *. rewrite reports_app, Hreports. simpl.
  by rewrite app_nil_r.
Qed.

(** C7: when collection succeeds and the call to the LLaMA server then
    raises, the seen-set after the cycle is the set of titles of the
    snapshot scanned in this cycle, and [last_update_time] is the one of
    before the cycle. *)
Theorem C7_seen_set_kept_on_failed_disambiguation (env : Env) (w w1 : World)
    (data : Collected) (e : exn) :
  collect_new_data env w = (Ok data, w1) ->
  (process_with_llama env data w1).1 = Raise e ->
  let w' := (run_daily_iteration env w).2 in
  (exists titles, vision_snapshot env = Ok titles ∧
                  last_scan w' = list_to_set titles) ∧
  last_update_time w' = last_update_time w ∧
  (generate_daily_update env w).1 = Raise e.
Proof.
  intros Hcollect Hllama. simpl.
  rewrite process_with_llama_eq in Hllama. cbn [fst] in Hllama.
  assert (cycle_items env data = Raise e) as Hitems.
  { unfold cycle_items, llama_items.
    destruct (json_encodable (LlamaPayload data llama_prompt));
      [by rewrite Hllama | by injection Hllama as ->]. }
  pose proof (collect_new_data_frame env w) as [Htime _].
  rewrite run_daily_iteration_eq, generate_daily_update_eq.
  rewrite Hcollect, Hitems. simpl.
  rewrite Hcollect in Htime. simpl in Htime.
  split; [|by split].
  rewrite collect_new_data_eq in Hcollect.
  destruct (get_new_audiobooks env w).1; [|discriminate].
  destruct (get_new_music env w).1; [|discriminate].
  rewrite get_new_physical_books_eq in Hcollect.
  destruct (vision_snapshot env) as [titles|]; [|discriminate].
  simpl in Hcollect. injection Hcollect as _ <-. by exists titles.
Qed.

(** C8 (what the code does): when the daily update has been generated,
    [last_update_time] has been set to the latest reading of the clock, one
    taken in this cycle, before the request is made; but
    [send_update_to_api] then raises [TypeError] while [update.dict()] is
    encoded, whatever the API endpoint would answer: no response is read
    and no failure of delivery is printed; the exception leaves
    [send_update_to_api] and is handled by [run_daily] like any error of
    the cycle, which prints it and not its success line. *)
Theorem C8_delivery_raises_before_any_response (env : Env) (w w1 : World)
    (update : DailyUpdate) :
  generate_daily_update env w = (Ok update, w1) ->
  (exists n, (ticks w <= n)%nat ∧ ticks w1 = S n ∧
             last_update_time w1 = clock n) ∧
  send_update_to_api env update w1 =
    (Raise TypeError,
     logged w1 [RequestsPost api_endpoint (UpdatePayload update)]) ∧
  run_daily_iteration env w =
    (Ok tt, logged w1 [RequestsPost api_endpoint (UpdatePayload update);
                       PrintError TypeError;
                       Sleep 86400]).
Proof.
  intros Hgen. split; [|split; [apply send_update_to_api_eq|]].
  - pose proof (collect_new_data_ticks env w) as Hticks.
    rewrite generate_daily_update_eq in Hgen.
    destruct (collect_new_data env w) as [[data|] w0]; [|discriminate].
    simpl in Hgen, Hticks. destruct (cycle_items env data); [|discriminate].
    injection Hgen as _ <-. simpl. exists (S (ticks w0)).
    split; [lia|]. by split.
  - rewrite run_daily_iteration_eq, Hgen, send_update_to_api_eq.
    by rewrite logged_logged.
Qed.

(** ** The scheduler *)

Lemma generate_daily_update_trace (env : Env) (w : World) :
  exists evs, trace (generate_daily_update env w).2 = (trace w ++ evs)%list ∧
              sleeps evs = [].
Proof.
  pose proof (collect_new_data_frame env w) as [_ Htrace].
  rewrite generate_daily_update_eq.
  destruct (collect_new_data env w) as [[data|e] w1]; simpl in *.
  - eexists [_]. destruct (cycle_items env data); simpl; by rewrite Htrace.
  - exists []. by rewrite Htrace, app_nil_r.
Qed.

Lemma run_daily_iteration_trace (env : Env) (w : World) :
  exists evs,
    (run_daily_iteration env w).1 = Ok tt ∧
    trace (run_daily_iteration env w).2 = (trace w ++ evs ++ [Sleep 86400])%list ∧
    sleeps evs = [].
Proof.
  destruct (generate_daily_update_trace env w) as (evs & Htrace & Hsleeps).
  rewrite run_daily_iteration_eq.
  destruct (generate_daily_update env w) as [[update|e] w1]; simpl in *.
  - rewrite ?send_update_to_api_eq. simpl.
    exists (evs ++ [RequestsPost api_endpoint (UpdatePayload update);
                    PrintError TypeError])%list.
    rewrite Htrace, <- !app_assoc. simpl.
    split; [reflexivity|]. split; [reflexivity|].
    rewrite sleeps_app, Hsleeps. reflexivity.
  - exists (evs ++ [PrintError e])%list. rewrite Htrace, <- !app_assoc. simpl.
    split; [reflexivity|]. split; [reflexivity|].
    rewrite sleeps_app, Hsleeps. reflexivity.
Qed.

(** C9: an exception that leaves [generate_daily_update] or
    [send_update_to_api] is caught in the iteration and printed; an
    iteration of the loop of [run_daily] never raises, whatever the outside
    world answers, and its last action is to sleep 86400 seconds, the only
    sleep of the iteration; the loop runs its iterations one after the
    other, each one from the state and the trace the one before has left,
    right after its sleep; so any number [n] of iterations runs to its
    end, with [n] sleeps of 86400 seconds each. *)
Theorem C9_scheduler_never_stops (n : nat) (envs : nat -> Env) (w : World) :
  (forall env w0,
     run_daily_iteration env w0 =
     match generate_daily_update env w0 with
     | (Raise e, w1) => (Ok tt, logged w1 [PrintError e; Sleep 86400])
     | (Ok update, w1) =>
         match send_update_to_api env update w1 with
         | (Raise e, w2) => (Ok tt, logged w2 [PrintError e; Sleep 86400])
         | (Ok _, w2) =>
             (Ok tt, logged w2 [PrintSentSuccessfully
                                  (title <$> new_items update);
                                Sleep 86400])
         end
     end) ∧
  (forall env w0, exists evs,
     (run_daily_iteration env w0).1 = Ok tt ∧
     trace (run_daily_iteration env w0).2 = (trace w0 ++ evs ++ [Sleep 86400])%list ∧
     sleeps evs = []) ∧
  (forall envs' w', run_daily O envs' w' = (Ok tt, w')) ∧
  (forall m envs' w',
     run_daily (S m) envs' w' =
     run_daily m (fun i => envs' (S i)) (run_daily_iteration (envs' O) w').2) ∧
  (run_daily n envs w).1 = Ok tt ∧
  sleeps (trace (run_daily n envs w).2) = (sleeps (trace w) ++ replicate n 86400)%list.
Proof.
  split; [apply run_daily_iteration_eq|].
  split; [apply run_daily_iteration_trace|].
  split; [reflexivity|]. split.
  { intros m envs' w'. cbn [run_daily]. unfold bind.
    destruct (run_daily_iteration_trace (envs' O) w') as (evs & Hok & _).
    destruct (run_daily_iteration (envs' O) w') as [res w1]. simpl in *.
    by subst res. }
  revert envs w. induction n as [|n IH]; intros envs w.
  - simpl. by rewrite app_nil_r.
  - cbn [run_daily]. unfold bind.
    destruct (run_daily_iteration_trace (envs O) w) as (evs & Hok & Htr & Hsl).
    destruct (run_daily_iteration (envs O) w) as [res w1]. simpl in *.
    subst res. destruct (IH (fun i => envs (S i)) w1) as [IHok IHsl].
    split; [exact IHok|]. rewrite IHsl, Htr, !sleeps_app, Hsl. simpl.
    by rewrite <- app_assoc.
Qed.

(** ** The labels of the scanner *)

Lemma book_label_inj (i j : nat) : book_label i = book_label j -> i = j.
Proof.
  unfold book_label. intros Heq.
  apply (inj (String.app "Book ")) in Heq. apply (inj pretty) in Heq. lia.
Qed.

Lemma book_labels_S (k : nat) :
  book_labels (S k) = (book_labels k ++ [book_label k])%list.
Proof. unfold book_labels. by rewrite seq_S, fmap_app. Qed.

Lemma book_labels_length (k : nat) : length (book_labels k) = k.
Proof. unfold book_labels. by rewrite length_fmap, length_seq. Qed.

Lemma book_labels_NoDup (k : nat) : NoDup (book_labels k).
Proof.
  unfold book_labels. apply NoDup_fmap_2_strong; [|apply NoDup_seq].
  intros i j _ _. apply book_label_inj.
Qed.

Lemma elem_of_book_labels (k : nat) (t : string) :
  t ∈ book_labels k <-> exists i, (i < k)%nat ∧ t = book_label i.
Proof.
  unfold book_labels. rewrite list_elem_of_fmap. split.
  - intros (i & -> & Hi). apply elem_of_seq in Hi. exists i. split; [lia|done].
  - intros (i & Hi & ->). exists i. split; [done|]. apply elem_of_seq. lia.
Qed.

Lemma process_contours_labels (contours : Image) (k : nat) :
  fold_left process_contour contours (book_labels k) =
  book_labels (k + count_large contours).
Proof.
  revert k. induction contours as [|r contours IH]; intros k.
  - simpl. by rewrite Nat.add_0_r.
  - simpl. unfold process_contour at 2. unfold count_large. simpl.
    fold (large r). destruct (large r); simpl.
    + rewrite book_labels_length. fold (book_label k).
      rewrite <- book_labels_S, IH. unfold count_large. f_equal. lia.
    + apply IH.
Qed.

Lemma vision_snapshot_labels (env : Env) (contours : Image) :
  camera_frame env = Some contours ->
  vision_snapshot env = Ok (book_labels (count_large contours)).
Proof.
  intros Hframe. unfold vision_snapshot. rewrite Hframe.
  f_equal. apply (process_contours_labels contours 0).
Qed.

(** X1: on a frame that was read, [process_image] returns the titles
    "Book 1", ..., "Book k" in this order, [k] being the number of contours
    wider than 50 and taller than 200; no title occurs twice, so the set
    built from them has [k] elements; and the state is left as it is. *)
Theorem X1_process_image_labels (contours : Image) (w : World) :
  process_image (Some contours) w =
    (Ok (book_labels (count_large contours)), w) ∧
  NoDup (book_labels (count_large contours)) ∧
  size (list_to_set (book_labels (count_large contours)) : gset string) =
    count_large contours.
Proof.
  split; [|split].
  - unfold process_image, ret. f_equal. f_equal.
    apply (process_contours_labels contours 0).
  - apply book_labels_NoDup.
  - rewrite size_list_to_set by apply book_labels_NoDup.
    apply book_labels_length.
Qed.

Lemma unseen_labels (k k' : nat) :
  unseen (book_labels k') (list_to_set (book_labels k)) ≡ₚ
  book_label <$> seq k (k' - k).
Proof.
  apply NoDup_Permutation.
  - apply unseen_NoDup.
  - apply NoDup_fmap_2_strong; [|apply NoDup_seq].
    intros i j _ _. apply book_label_inj.
  - intros t. rewrite unseen_spec, elem_of_list_to_set, !elem_of_book_labels.
    rewrite list_elem_of_fmap. split.
    + intros [(i & Hi & ->) Hnot]. exists i. split; [done|].
      apply elem_of_seq. destruct (decide (i < k)%nat) as [Hlt|]; [|lia].
      exfalso. apply Hnot. by exists i.
    + intros (i & -> & Hi). apply elem_of_seq in Hi. split.
      * exists i. split; [lia|done].
      * intros (j & Hj & Heq). apply book_label_inj in Heq. lia.
Qed.

(** X2: when the seen-set holds the titles of a scan that found [k] books
    and the next frame shows [k'] of them, [get_new_books] returns the
    titles "Book k+1", ..., "Book k'" in some order, and nothing when [k']
    is not above [k]: books are told apart by their rank alone, so a book
    that replaces another is not reported.  The seen-set becomes the
    titles of the [k'] books. *)
Theorem X2_scan_reports_growth_of_count (env : Env) (w : World) (k : nat)
    (contours : Image) :
  last_scan w = list_to_set (book_labels k) ->
  camera_frame env = Some contours ->
  let k' := count_large contours in
  exists new_books,
    get_new_books env w =
      (Ok new_books,
       mkWorld (list_to_set (book_labels k')) (last_update_time w) (ticks w)
               (trace w)) ∧
    new_books ≡ₚ book_label <$> seq k (k' - k) ∧
    length new_books = (k' - k)%nat ∧
    ((k' <= k)%nat -> new_books = []).
Proof.
  intros Hseen Hframe. simpl.
  rewrite get_new_books_eq, (vision_snapshot_labels env contours Hframe), Hseen.
  eexists. split; [reflexivity|].
  pose proof (unseen_labels k (count_large contours)) as Hperm.
  split; [exact Hperm|]. split.
  - rewrite Hperm. by rewrite length_fmap, length_seq.
  - intros Hle. apply Permutation_nil_r. rewrite Hperm.
    by replace (count_large contours - k)%nat with O by lia.
Qed.

(** X3: scanning the same frame a second time reports nothing and leaves
    the state of the first scan as it is. *)
Theorem X3_rescan_reports_nothing (env : Env) (w : World)
    (titles : list string) :
  vision_snapshot env = Ok titles ->
  let w1 := (get_new_books env w).2 in
  get_new_books env w1 = (Ok [], w1).
Proof.
  intros Hsnap. simpl. rewrite !get_new_books_eq, Hsnap. simpl.
  unfold unseen. by rewrite difference_diag_L, elements_empty.
Qed.

Lemma collect_new_data_last_scan (env : Env) (w : World) :
  last_scan (collect_new_data env w).2 = last_scan w ∨
  exists contours, camera_frame env = Some contours ∧
    last_scan (collect_new_data env w).2 =
    list_to_set (book_labels (count_large contours)).
Proof.
  rewrite collect_new_data_eq.
  destruct (get_new_audiobooks env w).1; [|by left].
  destruct (get_new_music env w).1; [|by left].
  rewrite get_new_physical_books_eq.
  destruct (camera_frame env) as [contours|] eqn:Hframe.
  - rewrite (vision_snapshot_labels env contours Hframe). simpl.
    right. by exists contours.
  - unfold vision_snapshot. rewrite Hframe. by left.
Qed.

(** What an iteration does to the fields of the tracker, in terms of the
    state [c] that collection leaves: the seen-set is the one of [c]; the
    watermark is either kept, or set to the second reading after [c]. *)
Lemma run_daily_iteration_fields (env : Env) (w : World) :
  let c := (collect_new_data env w).2 in
  let w' := (run_daily_iteration env w).2 in
  last_scan w' = last_scan c ∧
  ((last_update_time w' = last_update_time w ∧ ticks w' = ticks c) ∨
   (last_update_time w' = clock (S (ticks c)) ∧ ticks w' = S (S (ticks c)))).
Proof.
  simpl. pose proof (collect_new_data_frame env w) as [Htime _].
  rewrite run_daily_iteration_eq, generate_daily_update_eq.
  destruct (collect_new_data env w) as [[data|e] c]; simpl in *.
  - destruct (cycle_items env data) as [items|e]; simpl.
    + rewrite ?send_update_to_api_eq. simpl.
      split; [reflexivity|]. by right.
    + split; [reflexivity|]. by left.
  - split; [reflexivity|]. by left.
Qed.

Lemma run_daily_seen_set (n : nat) (envs : nat -> Env)
    (w : World) (k : nat) :
  last_scan w = list_to_set (book_labels k) ->
  exists k', last_scan (run_daily n envs w).2 = list_to_set (book_labels k').
Proof.
  revert envs w k. induction n as [|n IH]; intros envs w k Hseen.
  - exists k. exact Hseen.
  - cbn [run_daily]. unfold bind.
    pose proof (run_daily_iteration_fields (envs O) w) as [Hscan _].
    pose proof (run_daily_iteration_trace (envs O) w) as (evs & Hok & _).
    destruct (run_daily_iteration (envs O) w) as [res w1]. simpl in *.
    subst res.
    destruct (collect_new_data_last_scan (envs O) w)
      as [Hsame|(contours & _ & Hnew)].
    + apply (IH _ w1 k). by rewrite Hscan, Hsame.
    + apply (IH _ w1 (count_large contours)). by rewrite Hscan, Hnew.
Qed.

(** X4: the seen-set is always the set of titles "Book 1", ..., "Book k"
    for some [k]: if it is so before, it is so after any number of
    iterations of [run_daily], whatever the outside world answers. *)
Theorem X4_seen_set_is_a_range_of_labels (n : nat) (envs : nat -> Env)
    (w : World) (k : nat) :
  last_scan w = list_to_set (book_labels k) ->
  exists k', last_scan (run_daily n envs w).2 = list_to_set (book_labels k').
Proof. apply run_daily_seen_set. Qed.

(** ** What the scalar collectors return *)

Lemma traverse_Forall {A B} (f : A -> result (option B)) (P : B -> Prop)
    (l : list A) (ys : list B) :
  (forall x y, x ∈ l -> f x = Ok (Some y) -> P y) ->
  traverse f l = Ok ys ->
  Forall P ys ∧ (length ys <= length l)%nat.
Proof.
  revert ys. induction l as [|x l IH]; intros ys HP Htr; simpl in Htr.
  - injection Htr as <-. split; [constructor|done].
  - destruct (f x) as [o|] eqn:Hx; [|discriminate].
    destruct (traverse f l) as [zs|]; [|discriminate].
    injection Htr as <-.
    destruct (IH zs) as [Hall Hlen]; [|reflexivity|].
    { intros x' y Hin. apply HP. by right. }
    destruct o as [y|]; simpl.
    + split; [|lia]. constructor; [|exact Hall].
      apply (HP x y); [by left | exact Hx].
    + split; [exact Hall | lia].
Qed.

Lemma audiobook_row_Some (last : datetime) (book : gmap string pyval)
    (i : MediaItem) :
  audiobook_row last book = Ok (Some i) ->
  type i = "audiobook" ∧ timestamp i > last ∧
  book !! "title" = Some (PStr (title i)) ∧
  book !! "author" = Some (PStr (creator i)) ∧
  book !! "date_added" = Some (PTime (timestamp i)).
Proof.
  unfold audiobook_row, audiobook_item, getitem. run.
  destruct (book !! "date_added") as [[| |d| |]|]; simpl; try discriminate.
  case_bool_decide as Hgt; simpl; [|discriminate].
  destruct (book !! "title") as [[|t| | |]|]; simpl;
    destruct (book !! "author") as [[|a| | |]|]; simpl; try discriminate.
  intros [= <-]. done.
Qed.

Lemma music_row_Some (last : datetime) (track : gmap string pyval)
    (i : MediaItem) :
  music_row last track = Ok (Some i) ->
  type i = "music" ∧ timestamp i > last ∧
  track !! "track" = Some (PStr (title i)) ∧
  track !! "artist" = Some (PStr (creator i)) ∧
  track !! "played_at" = Some (PTime (timestamp i)).
Proof.
  unfold music_row, music_item, getitem. run.
  destruct (track !! "played_at") as [[| |d| |]|]; simpl; try discriminate.
  case_bool_decide as Hgt; simpl; [|discriminate].
  destruct (track !! "track") as [[|t| | |]|]; simpl;
    destruct (track !! "artist") as [[|a| | |]|]; simpl; try discriminate.
  intros [= <-]. done.
Qed.

(** X5: whatever the records of the two libraries hold, when
    [get_new_audiobooks] and [get_new_music] return, every item they
    return is of type "audiobook", respectively "music", carries a
    timestamp strictly after [last_update_time], and has the title, creator
    and timestamp of a record of the library; and there are no more items
    than records. *)
Theorem X5_scalar_delta_sound (env : Env) (w : World)
    (books tracks : list MediaItem) :
  (get_new_audiobooks env w).1 = Ok books ->
  (get_new_music env w).1 = Ok tracks ->
  (exists library, audible_library env = Ok library ∧
     (length books <= length library)%nat ∧
     Forall (fun i =>
       type i = "audiobook" ∧ timestamp i > last_update_time w ∧
       exists book, book ∈ library ∧
         book !! "title" = Some (PStr (title i)) ∧
         book !! "author" = Some (PStr (creator i)) ∧
         book !! "date_added" = Some (PTime (timestamp i))) books) ∧
  (exists recent, spotify_recent env = Ok recent ∧
     (length tracks <= length recent)%nat ∧
     Forall (fun i =>
       type i = "music" ∧ timestamp i > last_update_time w ∧
       exists track, track ∈ recent ∧
         track !! "track" = Some (PStr (title i)) ∧
         track !! "artist" = Some (PStr (creator i)) ∧
         track !! "played_at" = Some (PTime (timestamp i))) tracks).
Proof.
  rewrite get_new_audiobooks_eq, get_new_music_eq. simpl.
  intros Hbooks Htracks. split.
  - destruct (audible_library env) as [library|]; [|discriminate].
    exists library. split; [reflexivity|].
    eapply traverse_Forall in Hbooks as [Hall Hlen].
    + split; [exact Hlen | exact Hall].
    + intros book i Hin Hrow. simpl.
      apply audiobook_row_Some in Hrow as (Hty & Hgt & Hfields).
      split; [exact Hty|]. split; [exact Hgt|]. by exists book.
  - destruct (spotify_recent env) as [recent|]; [|discriminate].
    exists recent. split; [reflexivity|].
    eapply traverse_Forall in Htracks as [Hall Hlen].
    + split; [exact Hlen | exact Hall].
    + intros track i Hin Hrow. simpl.
      apply music_row_Some in Hrow as (Hty & Hgt & Hfields).
      split; [exact Hty|]. split; [exact Hgt|]. by exists track.
Qed.

(** ** Invariants of the loop *)

Lemma run_daily_watermark (n : nat) (envs : nat -> Env)
    (w : World) :
  (forall i j, (i <= j)%nat -> clock i <= clock j) ->
  last_update_time w <= clock (ticks w) ->
  let w' := (run_daily n envs w).2 in
  last_update_time w <= last_update_time w' ∧
  last_update_time w' <= clock (ticks w') ∧
  (ticks w <= ticks w')%nat.
Proof.
  intros Hmono. simpl. revert envs w. induction n as [|n IH]; intros envs w Hinv.
  - simpl. split; [lia|]. split; [exact Hinv | lia].
  - cbn [run_daily]. unfold bind.
    pose proof (run_daily_iteration_fields (envs O) w) as [_ Hfields].
    pose proof (collect_new_data_ticks (envs O) w) as Hticks.
    pose proof (run_daily_iteration_trace (envs O) w) as (evs & Hok & _).
    destruct (run_daily_iteration (envs O) w) as [res w1]. simpl in *.
    subst res.
    assert (last_update_time w <= last_update_time w1 ∧
            last_update_time w1 <= clock (ticks w1) ∧
            (ticks w <= ticks w1)%nat) as (Hle & Hinv1 & Hticks1).
    { destruct Hfields as [[-> ->]|[-> ->]].
      - split; [lia|]. split; [|lia].
        pose proof (Hmono _ _ Hticks). lia.
      - pose proof (Hmono (ticks w) (S (ticks (collect_new_data (envs O) w).2))).
        pose proof (Hmono (S (ticks (collect_new_data (envs O) w).2))
                          (S (S (ticks (collect_new_data (envs O) w).2)))).
        split; [lia|]. split; lia. }
    destruct (IH (fun i => envs (S i)) w1 Hinv1) as (IHle & IHinv & IHticks).
    split; [lia|]. split; [exact IHinv | lia].
Qed.

(** X6: with a clock that never goes back, and a watermark that is not
    ahead of the next reading of the clock, no number of iterations of
    [run_daily] makes the watermark decrease, and the watermark stays not
    ahead of the clock. *)
Theorem X6_watermark_never_decreases (n : nat) (envs : nat -> Env)
    (w : World) :
  (forall i j, (i <= j)%nat -> clock i <= clock j) ->
  last_update_time w <= clock (ticks w) ->
  let w' := (run_daily n envs w).2 in
  last_update_time w <= last_update_time w' ∧
  last_update_time w' <= clock (ticks w') ∧
  (ticks w <= ticks w')%nat.
Proof. apply run_daily_watermark. Qed.

(** X7: [generate_daily_update] returns an update only when collection
    succeeded and the LLaMA server answered with status 200 and a JSON
    object holding "new_items"; the items of the update are those built
    from that answer, whatever was collected, and its date is a reading of
    the clock taken after collection. *)
Theorem X7_update_comes_from_the_server (env : Env) (w w' : World)
    (update : DailyUpdate) :
  generate_daily_update env w = (Ok update, w') ->
  (exists r d v, llama_post env = Ok r ∧ status_code r = 200 ∧
     json r = Ok (PDict d) ∧ d !! "new_items" = Some v ∧
     exists items, iterate v = Ok items ∧
       traverse processed_row items = Ok (new_items update)) ∧
  is_ok (collect_new_data env w).1 = true ∧
  date update = clock (ticks (collect_new_data env w).2).
Proof.
  rewrite generate_daily_update_eq.
  destruct (collect_new_data env w) as [[data|] c]; [|discriminate].
  simpl. unfold cycle_items, llama_items, llama_answer.
  destruct (json_encodable (LlamaPayload data llama_prompt)); [|discriminate].
  destruct (llama_post env) as [r|]; [|discriminate].
  case_bool_decide as Hstatus; [|discriminate].
  destruct (json r) as [[| | | |d]|] eqn:Hjson; simpl; try discriminate.
  unfold getitem. destruct (d !! "new_items") as [v|] eqn:Hv; [|discriminate].
  destruct (iterate v) as [items|] eqn:Hiter; [|discriminate].
  destruct (traverse processed_row items) as [new|] eqn:Htr; [|discriminate].
  intros [= <- <-]. simpl. split; [|done].
  exists r, d, v. repeat (split; [done|]). by exists items.
Qed.

Lemma run_daily_iteration_requests (env : Env) (w : World) :
  exists d r,
    disambiguations (trace (run_daily_iteration env w).2) =
      (disambiguations (trace w) ++ d)%list ∧
    reports (trace (run_daily_iteration env w).2) =
      (reports (trace w) ++ r)%list ∧
    (length r <= length d)%nat ∧ (length d <= 1)%nat.
Proof.
  pose proof (collect_new_data_frame env w) as [_ Htrace].
  rewrite run_daily_iteration_eq, generate_daily_update_eq.
  destruct (collect_new_data env w) as [[data|e] c]; simpl in *.
  - destruct (cycle_items env data) as [items|e]; simpl.
    + rewrite ?send_update_to_api_eq. simpl.
      exists [data], [mkDailyUpdate (clock (ticks c)) items].
      rewrite !disambiguations_app, !reports_app, Htrace; simpl.
      rewrite ?app_nil_r.
      split; [reflexivity|]. split; [reflexivity|]. simpl; lia.
    + exists [data], [].
      rewrite !disambiguations_app, !reports_app, Htrace. simpl.
      rewrite ?app_nil_r.
      split; [reflexivity|]. split; [reflexivity|]. simpl; lia.
  - exists [], []. rewrite !disambiguations_app, !reports_app, Htrace. simpl.
    rewrite ?app_nil_r.
    split; [reflexivity|]. split; [reflexivity|]. simpl; lia.
Qed.

Lemma run_daily_requests (n : nat) (envs : nat -> Env) (w : World) :
  exists d r,
    disambiguations (trace (run_daily n envs w).2) =
      (disambiguations (trace w) ++ d)%list ∧
    reports (trace (run_daily n envs w).2) = (reports (trace w) ++ r)%list ∧
    (length r <= length d)%nat ∧ (length d <= n)%nat.
Proof.
  revert envs w. induction n as [|n IH]; intros envs w.
  - exists [], []. simpl. by rewrite !app_nil_r.
  - cbn [run_daily]. unfold bind.
    pose proof (run_daily_iteration_requests (envs O) w)
      as (d1 & r1 & Hd1 & Hr1 & Hle1 & Hone).
    pose proof (run_daily_iteration_trace (envs O) w) as (evs & Hok & _).
    destruct (run_daily_iteration (envs O) w) as [res w1]. simpl in *.
    subst res.
    destruct (IH (fun i => envs (S i)) w1) as (d2 & r2 & Hd2 & Hr2 & Hle2 & Hn).
    exists (d1 ++ d2)%list, (r1 ++ r2)%list.
    rewrite Hd2, Hr2, Hd1, Hr1, <- !app_assoc, !length_app.
    split; [reflexivity|]. split; [reflexivity|]. lia.
Qed.

(** X8: in [n] iterations [run_daily] calls the LLaMA server at most [n]
    times, and hands to the API endpoint at most as many updates as it has
    called the LLaMA server: no update is sent in an iteration that has not
    called the server, and none is sent twice. *)
Theorem X8_requests_of_the_loop (n : nat) (envs : nat -> Env) (w : World) :
  exists d r,
    disambiguations (trace (run_daily n envs w).2) =
      (disambiguations (trace w) ++ d)%list ∧
    reports (trace (run_daily n envs w).2) = (reports (trace w) ++ r)%list ∧
    (length r <= length d)%nat ∧ (length d <= n)%nat.
Proof. apply run_daily_requests. Qed.

(** ** The placeholder clients in a cycle *)

Lemma placeholder_library_rows (now : nat -> datetime) (last : datetime) :
  traverse (audiobook_row last) (AudibleClient_get_user_library now) =
  Ok (item_of "audiobook" <$>
      after last ((fun i : nat => ("Audiobook " ++ pretty i, "Author " ++ pretty i,
                                   now i - timedelta_days (Z.of_nat i)))
                  <$> seq 0 10)).
Proof.
  apply (traverse_rows audiobook_fields).
  - intros x r. apply audiobook_row_fields.
  - unfold AudibleClient_get_user_library. simpl. repeat constructor.
Qed.

Lemma placeholder_tracks_rows (now : nat -> datetime) (last : datetime) :
  traverse (music_row last) (SpotifyClient_get_recently_played now) =
  Ok (item_of "music" <$>
      after last ((fun i : nat => ("Song " ++ pretty i, "Artist " ++ pretty i,
                                   now i - timedelta_hours (Z.of_nat i)))
                  <$> seq 0 5)).
Proof.
  apply (traverse_rows track_fields).
  - intros x r. apply music_row_fields.
  - unfold SpotifyClient_get_recently_played. simpl. repeat constructor.
Qed.

(** X9: in the first cycle of a fresh tracker, when the clock has not gone
    back since the tracker was built, all five records of the placeholder
    Spotify client are new, each with its own time of play. *)
Theorem X9_fresh_tracker_takes_all_placeholder_tracks (env : Env)
    (now : nat -> datetime) :
  spotify_recent env = Ok (SpotifyClient_get_recently_played now) ->
  (forall i, (i < 5)%nat -> clock O <= now i) ->
  get_new_music env MediaTracker_init =
  (Ok ((fun i : nat =>
          mkMediaItem ("Song " ++ pretty i) ("Artist " ++ pretty i) "music"
                      (now i - timedelta_hours (Z.of_nat i)))
       <$> seq 0 5),
   MediaTracker_init).
Proof.
  intros Hrecent Hnow. rewrite get_new_music_eq, Hrecent. f_equal.
  rewrite placeholder_tracks_rows. f_equal. unfold after. simpl.
  assert (forall i, (i < 5)%nat -> now i - timedelta_hours (Z.of_nat i) >
                                    clock O - timedelta_days 1) as Hgt.
  { intros i Hi. specialize (Hnow i Hi).
    unfold timedelta_days, timedelta_hours. lia. }
  pose proof (Hgt 0%nat). pose proof (Hgt 1%nat). pose proof (Hgt 2%nat).
  pose proof (Hgt 3%nat). pose proof (Hgt 4%nat).
  repeat (rewrite filter_cons_True by (simpl; lia)). reflexivity.
Qed.

(** X10: in the first cycle of a fresh tracker, run less than a day after
    the tracker was built and with a clock that has advanced since, the
    new audiobooks are the first two records of the placeholder Audible
    client: the one added at the time of the call and the one added a day
    before it. *)
Theorem X10_fresh_tracker_takes_two_placeholder_audiobooks (env : Env)
    (now : nat -> datetime) :
  audible_library env = Ok (AudibleClient_get_user_library now) ->
  (forall i, (i < 10)%nat -> clock O < now i < clock O + timedelta_days 1) ->
  get_new_audiobooks env MediaTracker_init =
  (Ok [mkMediaItem "Audiobook 0" "Author 0" "audiobook" (now O);
       mkMediaItem "Audiobook 1" "Author 1" "audiobook"
                   (now 1%nat - timedelta_days 1)],
   MediaTracker_init).
Proof.
  intros Hlibrary Hnow. rewrite get_new_audiobooks_eq, Hlibrary. f_equal.
  rewrite placeholder_library_rows. f_equal. unfold after. simpl.
  pose proof (Hnow 0%nat). pose proof (Hnow 1%nat). pose proof (Hnow 2%nat).
  pose proof (Hnow 3%nat). pose proof (Hnow 4%nat). pose proof (Hnow 5%nat).
  pose proof (Hnow 6%nat). pose proof (Hnow 7%nat). pose proof (Hnow 8%nat).
  pose proof (Hnow 9%nat).
  unfold timedelta_days in *.
  repeat (rewrite filter_cons_True by (simpl; lia)).
  repeat (rewrite filter_cons_False by (simpl; lia)).
  rewrite filter_nil. simpl. unfold item_of. simpl.
  by rewrite Z.sub_0_r.
Qed.

(** X11: the first record of the placeholder Audible client is new in
    every cycle in which the library is read after the watermark, since it
    is added at the time of the call: the same audiobook is collected
    again cycle after cycle. *)
Theorem X11_placeholder_audiobook_is_always_new (env : Env) (w : World)
    (now : nat -> datetime) :
  audible_library env = Ok (AudibleClient_get_user_library now) ->
  last_update_time w < now O ->
  exists delta, (get_new_audiobooks env w).1 = Ok delta ∧
    mkMediaItem "Audiobook 0" "Author 0" "audiobook" (now O) ∈ delta.
Proof.
  intros Hlibrary Hnow.
  rewrite get_new_audiobooks_eq, Hlibrary, placeholder_library_rows.
  cbn [fst]. eexists. split; [reflexivity|].
  unfold after. simpl. unfold timedelta_days.
  rewrite filter_cons_True by (simpl; lia). simpl.
  unfold item_of at 1. simpl. rewrite Z.sub_0_r. by left.
Qed.

(** ** The program from its start *)

Lemma run_daily_sleeps (n : nat) (envs : nat -> Env) (w : World) :
  (run_daily n envs w).1 = Ok tt ∧
  sleeps (trace (run_daily n envs w).2) =
    (sleeps (trace w) ++ replicate n 86400)%list.
Proof.
  revert envs w. induction n as [|n IH]; intros envs w.
  - simpl. by rewrite app_nil_r.
  - cbn [run_daily]. unfold bind.
    destruct (run_daily_iteration_trace (envs O) w) as (evs & Hok & Htr & Hsl).
    destruct (run_daily_iteration (envs O) w) as [res w1]. simpl in *.
    subst res. destruct (IH (fun i => envs (S i)) w1) as [IHok IHsl].
    split; [exact IHok|]. rewrite IHsl, Htr, !sleeps_app, Hsl. simpl.
    by rewrite <- app_assoc.
Qed.

(** X12: the program, started on a fresh tracker with a clock that never
    goes back, runs any number [n] of iterations without raising, and
    after them: it has slept [n] times 86400 seconds; the seen-set is the
    set of titles "Book 1", ..., "Book k" for some [k]; the watermark lies
    between one day before the start and the next reading of the clock; it
    has called the LLaMA server at most [n] times and handed no more
    updates to the API endpoint than that. *)
Theorem X12_program_from_a_fresh_tracker (n : nat) (envs : nat -> Env) :
  (forall i j, (i <= j)%nat -> clock i <= clock j) ->
  let w' := (main n envs).2 in
  (main n envs).1 = Ok tt ∧
  sleeps (trace w') = replicate n 86400 ∧
  (exists k, last_scan w' = list_to_set (book_labels k)) ∧
  clock O - timedelta_days 1 <= last_update_time w' ∧
  last_update_time w' <= clock (ticks w') ∧
  (length (reports (trace w')) <= length (disambiguations (trace w')))%nat ∧
  (length (disambiguations (trace w')) <= n)%nat.
Proof.
  intros Hmono. simpl. unfold main.
  destruct (run_daily_sleeps n envs MediaTracker_init) as [Hok Hsleeps].
  destruct (run_daily_seen_set n envs MediaTracker_init 0 eq_refl) as [k Hk].
  assert (last_update_time MediaTracker_init <= clock (ticks MediaTracker_init))
    as Hinit.
  { simpl. pose proof (Hmono 0%nat 1%nat). unfold timedelta_days. lia. }
  destruct (run_daily_watermark n envs MediaTracker_init Hmono Hinit)
    as (Hle & Hinv & _).
  destruct (run_daily_requests n envs MediaTracker_init)
    as (d & r & Hd & Hr & Hrd & Hdn).
  split; [exact Hok|]. split; [exact Hsleeps|]. split; [by exists k|].
  split; [exact Hle|]. split; [exact Hinv|].
  rewrite Hd, Hr. simpl. lia.
Qed.

(** ** What the encoding of the requests stops *)

(** X13: when collection succeeds and any of the three lists holds an
    item, the request to the LLaMA server raises [TypeError] while its
    payload is encoded: [generate_daily_update] raises it after the one
    call of [requests.post], with the state collection has left, and the
    iteration prints the error and sleeps. *)
Theorem X13_collected_items_stop_the_request (env : Env) (w c : World)
    (data : Collected) :
  collect_new_data env w = (Ok data, c) ->
  audiobooks data ≠ [] ∨ music data ≠ [] ∨ physical_books data ≠ [] ->
  generate_daily_update env w =
    (Raise TypeError,
     logged c [RequestsPost (llama_server_url ++ "/process")
                            (LlamaPayload data llama_prompt)]) ∧
  run_daily_iteration env w =
    (Ok tt,
     logged c [RequestsPost (llama_server_url ++ "/process")
                            (LlamaPayload data llama_prompt);
               PrintError TypeError;
               Sleep 86400]).
Proof.
  intros Hcollect Hitems.
  assert (cycle_items env data = Raise TypeError) as Hraise.
  { unfold cycle_items. destruct data as [a m p]. simpl in *.
    destruct a; [|reflexivity]. destruct m; [|reflexivity].
    destruct p; [|reflexivity]. by destruct Hitems as [?|[?|?]]. }
  assert (generate_daily_update env w =
    (Raise TypeError,
     logged c [RequestsPost (llama_server_url ++ "/process")
                            (LlamaPayload data llama_prompt)])) as Hgen
    by (by rewrite generate_daily_update_eq, Hcollect, Hraise).
  split; [exact Hgen|].
  rewrite run_daily_iteration_eq, Hgen. by rewrite logged_logged.
Qed.

Lemma delivery_lines_app (tr1 tr2 : list Event) :
  delivery_lines (tr1 ++ tr2) = (delivery_lines tr1 ++ delivery_lines tr2)%list.
Proof.
  induction tr1 as [|ev tr1 IH]; simpl; [reflexivity|].
  destruct ev; simpl; by rewrite IH.
Qed.

Lemma run_daily_iteration_delivery (env : Env) (w : World) :
  delivery_lines (trace (run_daily_iteration env w).2) =
  delivery_lines (trace w).
Proof.
  pose proof (collect_new_data_frame env w) as [_ Htrace].
  rewrite run_daily_iteration_eq, generate_daily_update_eq.
  destruct (collect_new_data env w) as [[data|e] c]; simpl in *.
  - destruct (cycle_items env data) as [items|e]; simpl;
      rewrite !delivery_lines_app, Htrace; simpl; by rewrite !app_nil_r.
  - rewrite !delivery_lines_app, Htrace. simpl. by rewrite !app_nil_r.
Qed.

(** X14: [send_update_to_api] raises [TypeError] on every update, and in
    any number of iterations [run_daily] prints neither the line of a
    failed delivery nor the line of a successful one. *)
Theorem X14_no_delivery_line_is_printed (n : nat) (envs : nat -> Env)
    (w : World) :
  (forall env update w0, (send_update_to_api env update w0).1 = Raise TypeError) ∧
  delivery_lines (trace (run_daily n envs w).2) = delivery_lines (trace w).
Proof.
  split; [reflexivity|].
  revert envs w. induction n as [|n IH]; intros envs w; [reflexivity|].
  cbn [run_daily]. unfold bind.
  pose proof (run_daily_iteration_delivery (envs O) w) as Hd.
  pose proof (run_daily_iteration_trace (envs O) w) as (evs & Hok & _).
  destruct (run_daily_iteration (envs O) w) as [res w1]. simpl in *.
  subst res. by rewrite IH.
Qed.

End Program.

(** ** Concrete runs *)

(** C1 fails as stated: after a scan that finds no book, the seen-set of a
    tracker that had seen two books is not the one of before the scan. *)
Lemma C1_counterexample :
  vision_snapshot env_empty_shelf = Ok [] ∧
  elements (last_scan seen_two) = ["Book 1"; "Book 2"] ∧
  elements (last_scan (get_new_books env_empty_shelf seen_two).2) = [] ∧
  bool_decide (last_scan (get_new_books env_empty_shelf seen_two).2
               = last_scan seen_two) = false.
Proof. vm_compute. done. Qed.

Lemma C1_witness :
  get_new_books env_no_frame seen_two = (Raise CvError, seen_two) ∧
  get_new_books env_empty_shelf seen_two = (Ok [], mkWorld ∅ 100 O []).
Proof.
  split.
  - apply (proj1 (C1_empty_snapshot_empties_seen_set env_no_frame seen_two)).
    reflexivity.
  - apply (proj2 (C1_empty_snapshot_empties_seen_set env_empty_shelf seen_two)).
    reflexivity.
Defined.

Lemma C5_witness :
  vision_snapshot env_one_book = Ok ["Book 1"] ∧
  (get_new_books env_one_book seen_two).1 = Ok [] ∧
  elements (last_scan (get_new_books env_one_book seen_two).2) = ["Book 1"] ∧
  exists delta2,
    (get_new_books env_two_books (get_new_books env_one_book seen_two).2).1
      = Ok delta2 ∧ "Book 2" ∈ delta2.
Proof.
  assert (["Book 1"] ≠ []) as Hne by discriminate.
  destruct (C5_seen_set_replaced_by_snapshot env_one_book seen_two ["Book 1"]
              eq_refl Hne) as (Hdelta & _ & _ & Hseen & Hagain).
  split; [reflexivity|]. split; [exact Hdelta|]. split; [reflexivity|].
  apply (Hagain env_two_books ["Book 1"; "Book 2"] "Book 2").
  - reflexivity.
  - intros Hin. apply list_elem_of_singleton in Hin. discriminate.
  - apply list_elem_of_In. simpl. tauto.
Defined.

Lemma C10_witness :
  (get_new_physical_books sample_clock env_two_books seen_one).1 =
    Ok [mkMediaItem "Book 2" "Unknown" "physical_book" 1000] ∧
  Forall (fun i => creator i = "Unknown" ∧ type i = "physical_book")
         [mkMediaItem "Book 2" "Unknown" "physical_book" 1000] ∧
  NoDup ["Book 2"].
Proof.
  destruct (C10_physical_book_items sample_clock env_two_books seen_one
              (get_new_physical_books sample_clock env_two_books seen_one).2
              [mkMediaItem "Book 2" "Unknown" "physical_book" 1000] eq_refl)
    as (Hall & _ & Hnodup & _).
  split; [reflexivity|]. split; [exact Hall | exact Hnodup].
Defined.

Lemma C6_witness :
  get_new_audiobooks env_libraries seen_one =
    (Ok [mkMediaItem "Dune" "Frank Herbert" "audiobook" 200], seen_one) ∧
  get_new_music env_libraries seen_one =
    (Ok [mkMediaItem "Blue" "Joni Mitchell" "music" 150], seen_one).
Proof.
  destruct (C6_scalar_delta_strictly_after env_libraries seen_one
              [dune; emma] [song; old_song]
              [("Dune", "Frank Herbert", 200); ("Emma", "Jane Austen", 50)]
              [("Blue", "Joni Mitchell", 150); ("Help", "The Beatles", 100)]
              eq_refl eq_refl)
    as (Ha & Hm & _).
  - repeat constructor.
  - repeat constructor.
  - split; [exact Ha | exact Hm].
Defined.

(** C2 fails as stated: Spotify raises while Audible returns two new
    records; the cycle hands nothing to the LLaMA server, it prints the
    error and sleeps. *)
Lemma C2_counterexample :
  (get_new_audiobooks env_spotify_down seen_two).1 =
    Ok [mkMediaItem "Dune" "Frank Herbert" "audiobook" 200;
        mkMediaItem "Solaris" "Stanislaw Lem" "audiobook" 300] ∧
  (collect_new_data sample_clock env_spotify_down seen_two).1 =
    Raise (ClientError "spotify unavailable") ∧
  trace (run_daily_iteration sample_clock sample_parse_iso
                             env_spotify_down seen_two).2 =
    [PrintError (ClientError "spotify unavailable"); Sleep 86400] ∧
  disambiguations (trace (run_daily_iteration sample_clock sample_parse_iso
                                              env_spotify_down seen_two).2) = [].
Proof. vm_compute. done. Qed.

Lemma C2_witness :
  adapter_raises env_spotify_down ∧
  exists e,
    generate_daily_update sample_clock sample_parse_iso env_spotify_down seen_two
      = (Raise e, seen_two) ∧
    run_daily_iteration sample_clock sample_parse_iso env_spotify_down seen_two
      = (Ok tt, logged seen_two [PrintError e; Sleep 86400]).
Proof.
  assert (adapter_raises env_spotify_down) as Hfail
    by (right; left; reflexivity).
  split; [exact Hfail|].
  destruct (C2_adapter_failure_aborts_cycle sample_clock sample_parse_iso
              env_spotify_down seen_two Hfail) as (e & Hgen & Hrun & _).
  exists e. split; [exact Hgen | exact Hrun].
Defined.

Lemma C3_witness :
  llama_post env_llama_500 = Ok server_error ∧
  non_2xx server_error ∧
  reports (trace (run_daily_iteration sample_clock sample_parse_iso
                                      env_llama_500 seen_two).2) = [] ∧
  last_update_time (run_daily_iteration sample_clock sample_parse_iso
                                        env_llama_500 seen_two).2 = 100 ∧
  exists delta,
    (get_new_audiobooks env_libraries
       (run_daily_iteration sample_clock sample_parse_iso
                            env_llama_500 seen_two).2).1 = Ok delta ∧
    mkMediaItem "Dune" "Frank Herbert" "audiobook" 200 ∈ delta.
Proof.
  assert (non_2xx server_error) as Hstatus by (right; simpl; lia).
  destruct (C3_failed_disambiguation_reports_nothing sample_clock
              sample_parse_iso env_llama_500 seen_two server_error
              eq_refl Hstatus) as (Hreports & Hlast & _ & Hwindow).
  split; [reflexivity|]. split; [exact Hstatus|].
  split; [exact Hreports|]. split; [exact Hlast|].
  apply (Hwindow env_libraries [dune; emma]
           [("Dune", "Frank Herbert", 200); ("Emma", "Jane Austen", 50)]
           ("Dune", "Frank Herbert", 200)).
  - reflexivity.
  - repeat constructor.
  - apply list_elem_of_In. simpl. tauto.
  - simpl. lia.
Defined.

(** C4 fails as stated: a record with no title stands before a well-formed
    one, in the library and in the server's answer; in both cycles the
    [KeyError] ends the cycle, the well-formed record is not kept and no
    update is handed to the API endpoint. *)
Lemma C4_counterexample :
  audiobook_row 100 dune =
    Ok (Some (mkMediaItem "Dune" "Frank Herbert" "audiobook" 200)) ∧
  get_new_audiobooks env_bad_record seen_two =
    (Raise (KeyError "title"), seen_two) ∧
  trace (run_daily_iteration sample_clock sample_parse_iso
                             env_bad_record seen_two).2 =
    [PrintError (KeyError "title"); Sleep 86400] ∧
  processed_row sample_parse_iso answer_record =
    Ok (Some (mkMediaItem "Dune" "Frank Herbert" "audiobook" 500)) ∧
  (generate_daily_update sample_clock sample_parse_iso
                         env_bad_answer seen_two).1 =
    Raise (KeyError "title") ∧
  reports (trace (run_daily_iteration sample_clock sample_parse_iso
                                      env_bad_answer seen_two).2) = [].
Proof. vm_compute. done. Qed.

Lemma C4_witness :
  malformed_item sample_parse_iso env_bad_answer seen_two ∧
  exists e w1,
    generate_daily_update sample_clock sample_parse_iso env_bad_answer seen_two
      = (Raise e, w1) ∧
    reports (trace (run_daily_iteration sample_clock sample_parse_iso
                                        env_bad_answer seen_two).2) = [] ∧
    last_update_time (run_daily_iteration sample_clock sample_parse_iso
                                          env_bad_answer seen_two).2 = 100.
Proof.
  assert (malformed_item sample_parse_iso env_bad_answer seen_two) as Hbad.
  { right; right.
    exists (PList [answer_untitled; answer_record]),
           [answer_untitled; answer_record], answer_untitled.
    split; [reflexivity|]. split; [reflexivity|].
    split; [|reflexivity]. apply list_elem_of_In. simpl. tauto. }
  split; [exact Hbad|].
  destruct (C4_malformed_item_aborts_cycle sample_clock sample_parse_iso
              env_bad_answer seen_two Hbad)
    as (e & w1 & Hgen & _ & Hreports & Hlast).
  exists e, w1. split; [exact Hgen|]. split; [exact Hreports | exact Hlast].
Defined.

Lemma C7_witness :
  (collect_new_data sample_clock env_llama_500 seen_two).1 =
    Ok (mkCollected [] [] []) ∧
  (generate_daily_update sample_clock sample_parse_iso
                         env_llama_500 seen_two).1 =
    Raise (ServerError "Internal Server Error") ∧
  elements (last_scan seen_two) = ["Book 1"; "Book 2"] ∧
  elements (last_scan (run_daily_iteration sample_clock sample_parse_iso
                                           env_llama_500 seen_two).2) =
    ["Book 1"] ∧
  last_update_time (run_daily_iteration sample_clock sample_parse_iso
                                        env_llama_500 seen_two).2 = 100.
Proof.
  destruct (C7_seen_set_kept_on_failed_disambiguation sample_clock
              sample_parse_iso env_llama_500 seen_two
              (collect_new_data sample_clock env_llama_500 seen_two).2
              (mkCollected [] [] [])
              (ServerError "Internal Server Error") eq_refl eq_refl)
    as (_ & Hlast & Hgen).
  split; [reflexivity|]. split; [exact Hgen|]. split; [reflexivity|].
  split; [reflexivity | exact Hlast].
Defined.

Lemma C8_witness :
  api_post env_api_503 = Ok unavailable ∧
  non_2xx unavailable ∧
  last_update_time (generate_daily_update sample_clock sample_parse_iso
                                          env_api_503 seen_two).2 = 1001 ∧
  trace (run_daily_iteration sample_clock sample_parse_iso
                             env_api_503 seen_two).2 =
    [RequestsPost (llama_server_url ++ "/process")
       (LlamaPayload (mkCollected [] [] []) llama_prompt);
     RequestsPost api_endpoint
       (UpdatePayload
          (mkDailyUpdate 1000
             [mkMediaItem "Dune" "Frank Herbert" "audiobook" 500]));
     PrintError TypeError;
     Sleep 86400].
Proof.
  assert (non_2xx unavailable) as Hstatus by (right; simpl; lia).
  destruct (C8_delivery_raises_before_any_response sample_clock
              sample_parse_iso env_api_503 seen_two
              (generate_daily_update sample_clock sample_parse_iso
                                     env_api_503 seen_two).2
              (mkDailyUpdate 1000
                 [mkMediaItem "Dune" "Frank Herbert" "audiobook" 500])
              eq_refl)
    as (_ & _ & Hrun).
  split; [reflexivity|]. split; [exact Hstatus|]. split; [reflexivity|].
  rewrite Hrun. reflexivity.
Defined.

Lemma sample_clock_monotone (i j : nat) :
  (i <= j)%nat -> sample_clock i <= sample_clock j.
Proof. unfold sample_clock. lia. Defined.

Lemma X2_witness :
  last_scan seen_one = list_to_set (book_labels 1) ∧
  camera_frame env_two_books = Some [spine; speck; spine] ∧
  exists new_books,
    (get_new_books env_two_books seen_one).1 = Ok new_books ∧
    new_books ≡ₚ ["Book 2"] ∧ length new_books = 1%nat.
Proof.
  assert (last_scan seen_one = list_to_set (book_labels 1)) as Hseen
    by (vm_compute; reflexivity).
  split; [exact Hseen|]. split; [reflexivity|].
  destruct (X2_scan_reports_growth_of_count env_two_books seen_one 1
              [spine; speck; spine] Hseen eq_refl)
    as (new_books & Hrun & Hperm & Hlen & _).
  exists new_books. rewrite Hrun. split; [reflexivity|].
  split; [exact Hperm | exact Hlen].
Defined.

Lemma X3_witness :
  vision_snapshot env_two_books = Ok ["Book 1"; "Book 2"] ∧
  get_new_books env_two_books (get_new_books env_two_books seen_one).2 =
    (Ok [], (get_new_books env_two_books seen_one).2).
Proof.
  split; [reflexivity|].
  apply (X3_rescan_reports_nothing env_two_books seen_one
           ["Book 1"; "Book 2"] eq_refl).
Defined.

Lemma X4_witness :
  last_scan (MediaTracker_init sample_clock) = list_to_set (book_labels 0) ∧
  exists k,
    last_scan (run_daily sample_clock sample_parse_iso 2
                 (fun _ => env_two_books) (MediaTracker_init sample_clock)).2
    = list_to_set (book_labels k).
Proof.
  split; [reflexivity|].
  apply (X4_seen_set_is_a_range_of_labels sample_clock sample_parse_iso 2
           (fun _ => env_two_books) (MediaTracker_init sample_clock) 0 eq_refl).
Defined.

Lemma X5_witness :
  (get_new_audiobooks env_libraries seen_one).1 =
    Ok [mkMediaItem "Dune" "Frank Herbert" "audiobook" 200] ∧
  (get_new_music env_libraries seen_one).1 =
    Ok [mkMediaItem "Blue" "Joni Mitchell" "music" 150] ∧
  (exists library, audible_library env_libraries = Ok library ∧
     (1 <= length library)%nat) ∧
  (exists recent, spotify_recent env_libraries = Ok recent ∧
     (1 <= length recent)%nat).
Proof.
  destruct (X5_scalar_delta_sound env_libraries seen_one
              [mkMediaItem "Dune" "Frank Herbert" "audiobook" 200]
              [mkMediaItem "Blue" "Joni Mitchell" "music" 150]
              eq_refl eq_refl)
    as [(library & Hlib & Hlen & _) (recent & Hrec & Hlen' & _)].
  split; [reflexivity|]. split; [reflexivity|]. split.
  - exists library. split; [exact Hlib | exact Hlen].
  - exists recent. split; [exact Hrec | exact Hlen'].
Defined.

Lemma X6_witness :
  last_update_time (MediaTracker_init sample_clock) = 1000 - 86400000000 ∧
  1000 - 86400000000 <=
    last_update_time (run_daily sample_clock sample_parse_iso 2
                        (fun _ => env_empty_shelf)
                        (MediaTracker_init sample_clock)).2.
Proof.
  split; [reflexivity|].
  assert (last_update_time (MediaTracker_init sample_clock) <=
          sample_clock (ticks (MediaTracker_init sample_clock))) as Hinit
    by (vm_compute; discriminate).
  destruct (X6_watermark_never_decreases sample_clock sample_parse_iso 2
              (fun _ => env_empty_shelf) (MediaTracker_init sample_clock)
              sample_clock_monotone Hinit) as (Hle & _ & _).
  exact Hle.
Defined.

Lemma X7_witness :
  (generate_daily_update sample_clock sample_parse_iso env_api_503 seen_two).1
    = Ok (mkDailyUpdate 1000
            [mkMediaItem "Dune" "Frank Herbert" "audiobook" 500]) ∧
  exists r, llama_post env_api_503 = Ok r ∧ status_code r = 200.
Proof.
  split; [reflexivity|].
  destruct (X7_update_comes_from_the_server sample_clock sample_parse_iso
              env_api_503 seen_two
              (generate_daily_update sample_clock sample_parse_iso
                                     env_api_503 seen_two).2
              (mkDailyUpdate 1000
                 [mkMediaItem "Dune" "Frank Herbert" "audiobook" 500])
              eq_refl)
    as ((r & d & v & Hpost & Hstatus & _) & _).
  exists r. split; [exact Hpost | exact Hstatus].
Defined.

Lemma X9_witness :
  spotify_recent env_placeholders =
    Ok (SpotifyClient_get_recently_played sample_now) ∧
  title <$> (match (get_new_music env_placeholders
                      (MediaTracker_init sample_clock)).1 with
             | Ok tracks => tracks
             | Raise _ => []
             end)
  = ["Song 0"; "Song 1"; "Song 2"; "Song 3"; "Song 4"].
Proof.
  split; [reflexivity|].
  rewrite (X9_fresh_tracker_takes_all_placeholder_tracks sample_clock
             env_placeholders sample_now eq_refl).
  - reflexivity.
  - intros i _. unfold sample_clock, sample_now. lia.
Defined.

Lemma X10_witness :
  audible_library env_placeholders =
    Ok (AudibleClient_get_user_library sample_now) ∧
  (get_new_audiobooks env_placeholders (MediaTracker_init sample_clock)).1 =
    Ok [mkMediaItem "Audiobook 0" "Author 0" "audiobook" 2000;
        mkMediaItem "Audiobook 1" "Author 1" "audiobook" (2001 - 86400000000)].
Proof.
  split; [reflexivity|].
  rewrite (X10_fresh_tracker_takes_two_placeholder_audiobooks sample_clock
             env_placeholders sample_now eq_refl).
  - reflexivity.
  - intros i Hi. unfold sample_clock, sample_now, timedelta_days. lia.
Defined.

Lemma X11_witness :
  last_update_time seen_one < sample_now O ∧
  exists delta, (get_new_audiobooks env_placeholders seen_one).1 = Ok delta ∧
    mkMediaItem "Audiobook 0" "Author 0" "audiobook" 2000 ∈ delta.
Proof.
  assert (last_update_time seen_one < sample_now O) as Hlt
    by (vm_compute; reflexivity).
  split; [exact Hlt|].
  apply (X11_placeholder_audiobook_is_always_new env_placeholders seen_one
           sample_now eq_refl Hlt).
Defined.

Lemma X12_witness :
  (main sample_clock sample_parse_iso 3 (fun _ => env_placeholders)).1 = Ok tt ∧
  sleeps (trace (main sample_clock sample_parse_iso 3
                      (fun _ => env_placeholders)).2) = [86400; 86400; 86400] ∧
  (length (disambiguations
             (trace (main sample_clock sample_parse_iso 3
                          (fun _ => env_placeholders)).2)) <= 3)%nat.
Proof.
  destruct (X12_program_from_a_fresh_tracker sample_clock sample_parse_iso 3
              (fun _ => env_placeholders) sample_clock_monotone)
    as (Hok & Hsleeps & _ & _ & _ & _ & Hcalls).
  split; [exact Hok|]. split; [exact Hsleeps | exact Hcalls].
Defined.

Lemma C9_witness :
  trace (run_daily sample_clock sample_parse_iso 2
                   (fun _ => env_spotify_down) seen_two).2 =
    [PrintError (ClientError "spotify unavailable"); Sleep 86400;
     PrintError (ClientError "spotify unavailable"); Sleep 86400].
Proof.
  destruct (C9_scheduler_never_stops sample_clock sample_parse_iso 2
              (fun _ => env_spotify_down) seen_two)
    as (_ & _ & Hzero & Hstep & _ & _).
  rewrite !Hstep, Hzero. reflexivity.
Defined.

Lemma X13_witness :
  (collect_new_data sample_clock env_libraries seen_one).1 =
    Ok (mkCollected [mkMediaItem "Dune" "Frank Herbert" "audiobook" 200]
                    [mkMediaItem "Blue" "Joni Mitchell" "music" 150] []) ∧
  (generate_daily_update sample_clock sample_parse_iso
                         env_libraries seen_one).1 = Raise TypeError ∧
  last_update_time (run_daily_iteration sample_clock sample_parse_iso
                                        env_libraries seen_one).2 = 100.
Proof.
  assert (audiobooks
            (mkCollected [mkMediaItem "Dune" "Frank Herbert" "audiobook" 200]
                         [mkMediaItem "Blue" "Joni Mitchell" "music" 150] [])
          ≠ []) as Hne by discriminate.
  destruct (X13_collected_items_stop_the_request sample_clock sample_parse_iso
              env_libraries seen_one
              (collect_new_data sample_clock env_libraries seen_one).2
              (mkCollected [mkMediaItem "Dune" "Frank Herbert" "audiobook" 200]
                           [mkMediaItem "Blue" "Joni Mitchell" "music" 150] [])
              eq_refl (or_introl Hne)) as [Hgen Hrun].
  split; [reflexivity|]. rewrite Hgen, Hrun. split; reflexivity.
Defined.
